(** * Allokera: buffer allocation and refill calculation

    A shallow embedding of [allokera/logic/allocation.py] ([allocate]),
    [logic/refill.py] ([calculate_refill], [_reclassify_skrymmande]),
    [allokera/utils/common.py] ([find_col], [to_num]) and the summary per
    source type of [gui/app.py], with the properties of the allocation
    engine and of the refill calculator stated and proved over it.

    Conventions of the embedding.
    - Quantities are Python floats in the source.  They are embedded as exact
      rationals [Q]: comparisons, [min], subtraction and division are the
      exact ones, [round] is round-half-to-even and [int] truncates.
    - A pandas table is a list of column names together with its rows.  The
      rows of the order and buffer tables are taken after the cell
      normalisation of [allocate] (the helper columns [_artikel], [_qty],
      [_loc], [_received], [_source_id], and the numeral of the status cell):
      parsing of cells belongs to the readers, not to the engine.
    - Python's [str.lower], [str.upper], [str.strip], and the rendering of a
      float or of a quoted string are operations of the class [PyStr]; the
      development is generic in them. *)

From Stdlib Require Import List String Ascii Bool ZArith QArith Qround Lqa Lia.
From Stdlib Require Import Permutation Sorted DecimalString DecimalNat.
Import ListNotations.

Local Open Scope string_scope.
Local Open Scope list_scope.
Local Open Scope Q_scope.

(* ================================================================== *)
(** ** Python and pandas primitives *)

(** String operations of the Python runtime the code relies on. *)
Class PyStr := {
  lower : string -> string;      (* str.lower *)
  upper : string -> string;      (* str.upper *)
  strip : string -> string;      (* str.strip *)
  repr_str : string -> string;   (* repr of a str, as in an f-string of a list *)
  str_float : Q -> string        (* str of a float *)
}.

(** [needle in hay] on strings. *)
Fixpoint contains (needle hay : string) : bool :=
  String.prefix needle hay ||
  match hay with
  | EmptyString => false
  | String _ hay' => contains needle hay'
  end.

(** [s.startswith(p)]. *)
Definition startswith (s p : string) : bool := String.prefix p s.

(** [x in xs] for a list or set of strings. *)
Definition str_in (x : string) (xs : list string) : bool :=
  existsb (String.eqb x) xs.

(** [a < b] on floats. *)
Definition Qltb (a b : Q) : bool := negb (Qle_bool b a).

(** Python's [min(a, b)]: [b] when [b < a], else [a]. *)
Definition py_min (a b : Q) : Q := if Qltb b a then b else a.

(** Python's [max(a, b)]: [b] when [b > a], else [a]. *)
Definition py_max (a b : Q) : Q := if Qltb a b then b else a.

(** Python's [int(x)] on a float: truncation towards zero. *)
Definition py_int (x : Q) : Z := Z.quot (Qnum x) (Zpos (Qden x)).

(** Python's [round(x)] on a float: nearest integer, ties to even. *)
Definition py_round (x : Q) : Z :=
  let f := Qfloor x in
  let r := x - inject_Z f in
  if Qltb r (1 # 2) then f
  else if Qltb (1 # 2) r then (f + 1)%Z
  else if Z.even f then f else (f + 1)%Z.

(** Sum of a list of floats. *)
Definition Qsum (l : list Q) : Q := fold_right Qplus 0 l.

Definition Zsum (l : list Z) : Z := fold_right Z.add 0%Z l.

(** A Python [dict] with string keys: insertion-ordered, one entry per key. *)
Definition dict (V : Type) := list (string * V).

Fixpoint dict_get {V} (k : string) (d : dict V) : option V :=
  match d with
  | [] => None
  | (k', v) :: d' => if String.eqb k' k then Some v else dict_get k d'
  end.

Fixpoint dict_set {V} (k : string) (v : V) (d : dict V) : dict V :=
  match d with
  | [] => [(k, v)]
  | (k', v') :: d' =>
      if String.eqb k' k then (k', v) :: d' else (k', v') :: dict_set k v d'
  end.

Definition dict_keys {V} (d : dict V) : list string := map fst d.

(** [d.get(k, default)]. *)
Definition dict_get_default {V} (k : string) (default : V) (d : dict V) : V :=
  match dict_get k d with Some v => v | None => default end.

(** First [Some] among the images of a list. *)
Fixpoint first_some {A B} (f : A -> option B) (l : list A) : option B :=
  match l with
  | [] => None
  | x :: l' => match f x with Some y => Some y | None => first_some f l' end
  end.

(** Stable insertion sort by a boolean order, the model of
    [DataFrame.sort_values]. *)
Fixpoint insert_by {A} (leb : A -> A -> bool) (x : A) (l : list A) : list A :=
  match l with
  | [] => [x]
  | y :: l' => if leb x y then x :: l else y :: insert_by leb x l'
  end.

Fixpoint sort_values {A} (leb : A -> A -> bool) (l : list A) : list A :=
  match l with
  | [] => []
  | x :: l' => insert_by leb x (sort_values leb l')
  end.

(** A pandas [DataFrame]: column names and rows. *)
Record DataFrame (R : Type) := mkDF {
  df_columns : list string;
  df_rows : list R
}.
Arguments mkDF {R}.
Arguments df_columns {R}.
Arguments df_rows {R}.

(** [df.empty]. *)
Definition df_empty {R} (df : DataFrame R) : bool :=
  match df_rows df with [] => true | _ => false end.

(** Exceptions raised by the core. *)
Inductive exn := KeyError (msg : string).

Inductive result (A : Type) :=
| Ok (a : A)
| Raise (e : exn).
Arguments Ok {A}.
Arguments Raise {A}.

Definition bind {A B} (r : result A) (k : A -> result B) : result B :=
  match r with
  | Ok a => k a
  | Raise e => Raise e
  end.

Notation "x <- r ;; k" := (bind r (fun x => k))
  (at level 61, r at next level, right associativity).

(* ================================================================== *)
(** ** io/schemas.py and utils/common.py *)

Module Schemas.

Definition ORDER_artikel := ["artikel"; "artikelnummer"; "sku"; "article"; "artnr"; "art.nr"].
Definition ORDER_qty := ["beställt"; "antal"; "qty"; "quantity"; "bestalld"; "order qty"].
Definition ORDER_status := ["status"; "radstatus"; "orderstatus"; "state"].
Definition ORDER_ordid := ["ordernr"; "order nr"; "order number"; "kund"; "kundnr"].
Definition ORDER_radid := ["radnr"; "rad nr"; "line id"; "rad"; "struktur"; "radsnr"].

Definition BUFFER_artikel := ["artikel"; "article"; "artnr"; "art.nr"; "artikelnummer"].
Definition BUFFER_qty := ["antal"; "qty"; "quantity"; "pallantal"; "colli"; "units"].
Definition BUFFER_loc := ["lagerplats"; "plats"; "location"; "bin"; "hyllplats"].
Definition BUFFER_dt :=
  ["datum/tid"; "datum"; "mottagen"; "received"; "inleverans"; "inleveransdatum";
   "timestamp"; "arrival"].
Definition BUFFER_id := ["pallid"; "pall id"; "id"; "sscc"; "etikett"; "batch"; "lpn"].
Definition BUFFER_status := ["status"; "pallstatus"; "state"].

End Schemas.

Section Common.
Context {py : PyStr}.

(** Rendering of a list of strings inside an f-string: [['a', 'b']]. *)
Definition repr_list (l : list string) : string :=
  ("[" ++ String.concat ", " (map repr_str l) ++ "]")%string.

(** The message of the [KeyError] of [find_col]. *)
Definition find_col_message (columns candidates : list string) : string :=
  ("Hittar inte kolumnerna " ++ repr_list candidates ++ " i " ++ repr_list columns)%string.

(** [cols = {c.lower(): c for c in df.columns}]. *)
Definition lower_index (columns : list string) : dict string :=
  fold_left (fun d c => dict_set (lower c) c d) columns [].

(** [find_col(df, candidates, required, default)]: the first candidate that
    is a column name up to case, else the first column whose lower-cased
    name contains a candidate, else [default], or a [KeyError] when the
    column is required and no default is given. *)
Definition find_col (columns candidates : list string)
    (required : bool) (default : option string) : result (option string) :=
  let cols := lower_index columns in
  match first_some (fun cand => dict_get (lower cand) cols) candidates with
  | Some c => Ok (Some c)
  | None =>
      match first_some
              (fun kv : string * string =>
                 if existsb (fun cand => contains (lower cand) (fst kv)) candidates
                 then Some (snd kv) else None)
              cols with
      | Some c => Ok (Some c)
      | None =>
          match required, default with
          | true, None => Raise (KeyError (find_col_message columns candidates))
          | _, _ => Ok default
          end
      end
  end.

End Common.

(* ================================================================== *)
(** ** config/constants.py *)

Definition INVALID_LOC_PREFIXES : list string := ["AA"].
Definition INVALID_LOC_EXACT : list string := ["TRANSIT"; "TRANSIT_ERROR"; "MISSING"; "UT2"].
Definition ALLOC_BUFFER_STATUSES : list Z := [29; 30; 32]%Z.
Definition REFILL_BUFFER_STATUSES : list Z := [29; 30]%Z.
Definition NEAR_MISS_PCT : Q := 15 # 100.

(* ================================================================== *)
(** ** Data model *)

(** A row of [orders] after normalisation: the original cells (as text) and
    the helper columns. *)
Record OrderRow := mkOrderRow {
  o_cells : dict string;        (* the original columns of the row *)
  o_artikel : string;           (* "_artikel" *)
  o_qty : Q;                    (* "_qty" *)
  o_order_id : string;          (* "_order_id" *)
  o_order_line : string;        (* "_order_line" *)
  o_status_num : option Z       (* first integer of the status cell, if any *)
}.

(** A row of [buffer_df] after normalisation. *)
Record BufferRow := mkBufferRow {
  b_artikel : string;           (* "_artikel" *)
  b_qty : Q;                    (* "_qty" *)
  b_loc : string;               (* "_loc" *)
  b_received : option Z;        (* "_received", [None] for NaT *)
  b_source_id : string;         (* "_source_id" *)
  b_status : string;            (* the status cell, stripped *)
  b_status_num : option Z       (* first integer of the status cell, if any *)
}.

(** An entry of a pallet or bin queue. *)
Record Unit := mkUnit {
  u_source_id : string;
  u_qty : Q;
  u_loc : string;
  u_received : option Z
}.

(** An allocated line: the cloned order row with the quantity column and the
    four derived columns written over it. *)
Record AllocatedLine := mkSub {
  sub_orow : OrderRow;          (* clone_row(orow) *)
  sub_qty : Q;                  (* sub[order_qty_col] *)
  sub_zon : string;             (* "Zon (beräknad)" *)
  sub_kalltyp : string;         (* "Källtyp" *)
  sub_kalla : string;           (* "Källa" *)
  sub_kallplats : string        (* "Källplats" *)
}.

(** A near-miss record; the last key is absent until the line is tagged. *)
Record NearMissRecord := mkNearMiss {
  nm_Artikel : string;
  nm_OrderID : string;
  nm_OrderRad : string;
  nm_PallID : string;
  nm_Kallplats : string;
  nm_Mottagen : option Z;
  nm_Behov_vid_tillfallet : Q;
  nm_Pall_kvantitet : Q;
  nm_Skillnad : Q;
  nm_Procentuell_skillnad : Q;
  nm_Anledning : string;
  nm_Galler : option bool       (* "Gäller (INSTEAD R/A)" *)
}.

Definition NEAR_MISS_COLUMNS : list string :=
  ["Artikel"; "OrderID"; "OrderRad"; "PallID"; "Källplats"; "Mottagen";
   "Behov_vid_tillfället"; "Pall_kvantitet"; "Skillnad";
   "Procentuell skillnad (%)"; "Anledning"].

Definition GALLER_COLUMN : string := "Gäller (INSTEAD R/A)".

Definition ADDED_COLS : list string :=
  ["Zon (beräknad)"; "Källtyp"; "Källa"; "Källplats"].

(** The mutable collections of [allocate]. *)
Record Store := mkStore {
  pallet_queues : string -> list Unit;
  bin_queues : string -> list Unit;
  allocated_rows : list AllocatedLine;
  near_miss_rows : list NearMissRecord
}.

(** [queues[art] = q]. *)
Definition set_queue (queues : string -> list Unit) (art : string) (q : list Unit)
  : string -> list Unit :=
  fun k => if String.eqb k art then q else queues k.

(* ================================================================== *)
(** ** logic/allocation.py: processing of one order line *)

Section Allocation.
Context {py : PyStr}.

(** [record_near_miss(orow, pal, need)], appending to [near_miss_rows]. *)
Definition record_near_miss (near_miss_rows : list NearMissRecord)
    (orow : OrderRow) (pal : Unit) (need : Q) : list NearMissRecord :=
  if Qle_bool need 0 then near_miss_rows
  else
    let diff := u_qty pal - need in
    if Qle_bool diff 0 then near_miss_rows
    else
      let pct := diff / need in
      if Qle_bool pct NEAR_MISS_PCT then
        near_miss_rows ++
        [ {| nm_Artikel := o_artikel orow;
             nm_OrderID := o_order_id orow;
             nm_OrderRad := o_order_line orow;
             nm_PallID := u_source_id pal;
             nm_Kallplats := u_loc pal;
             nm_Mottagen := u_received pal;
             nm_Behov_vid_tillfallet := need;
             nm_Pall_kvantitet := u_qty pal;
             nm_Skillnad := diff;
             nm_Procentuell_skillnad := pct * 100;
             nm_Anledning := "Pallen var ≤15% större än återstående behov (kan ej brytas)";
             nm_Galler := None |} ]
      else near_miss_rows.

(** State of the HELPALL loop: the locals [need], [any_helpall], [new_pq] and
    the two shared result lists. *)
Record Helpall := mkHelpall {
  h_need : Q;
  h_any_helpall : bool;
  h_new_pq : list Unit;
  h_allocated_rows : list AllocatedLine;
  h_near_miss_rows : list NearMissRecord
}.

(** Body of [while tmp and need > 0], for the popped pallet [pal]. *)
Definition helpall_body (orow : OrderRow) (pal : Unit) (s : Helpall) : Helpall :=
  let pal_qty := u_qty pal in
  if Qle_bool pal_qty (h_need s) then
    {| h_need := h_need s - pal_qty;
       h_any_helpall := true;
       h_new_pq := h_new_pq s;
       h_allocated_rows :=
         h_allocated_rows s ++
         [ {| sub_orow := orow; sub_qty := pal_qty; sub_zon := "H";
              sub_kalltyp := "HELPALL"; sub_kalla := u_source_id pal;
              sub_kallplats := u_loc pal |} ];
       h_near_miss_rows := h_near_miss_rows s |}
  else
    {| h_need := h_need s;
       h_any_helpall := h_any_helpall s;
       h_new_pq := h_new_pq s ++ [pal];
       h_allocated_rows := h_allocated_rows s;
       h_near_miss_rows := record_near_miss (h_near_miss_rows s) orow pal (h_need s) |}.

(** The HELPALL loop over [tmp], followed by the loop that moves what is left
    of [tmp] to [new_pq]. *)
Fixpoint helpall_loop (orow : OrderRow) (tmp : list Unit) (s : Helpall) : Helpall :=
  match tmp with
  | [] => s
  | pal :: tmp' =>
      if Qltb 0 (h_need s) then helpall_loop orow tmp' (helpall_body orow pal s)
      else
        {| h_need := h_need s;
           h_any_helpall := h_any_helpall s;
           h_new_pq := h_new_pq s ++ tmp;
           h_allocated_rows := h_allocated_rows s;
           h_near_miss_rows := h_near_miss_rows s |}
  end.

(** State of the AUTOSTORE loop. *)
Record Autostore := mkAutostore {
  a_need : Q;
  a_any_autostore : bool;
  a_new_bq : list Unit;
  a_allocated_rows : list AllocatedLine
}.

(** Body of [while bq and need > 0], for the popped bin [binr]. *)
Definition autostore_body (orow : OrderRow) (binr : Unit) (s : Autostore) : Autostore :=
  let take := py_min (u_qty binr) (a_need s) in
  let taken := Qltb 0 take in
  let rows : list AllocatedLine :=
    if taken then
      a_allocated_rows s ++
      [ {| sub_orow := orow; sub_qty := take; sub_zon := "R";
           sub_kalltyp := "AUTOSTORE"; sub_kalla := u_source_id binr;
           sub_kallplats := u_loc binr |} ]
    else a_allocated_rows s in
  let binr' :=
    if taken then
      {| u_source_id := u_source_id binr; u_qty := u_qty binr - take;
         u_loc := u_loc binr; u_received := u_received binr |}
    else binr in
  {| a_need := if taken then a_need s - take else a_need s;
     a_any_autostore := if taken then true else a_any_autostore s;
     a_new_bq := if Qltb 0 (u_qty binr') then a_new_bq s ++ [binr'] else a_new_bq s;
     a_allocated_rows := rows |}.

Fixpoint autostore_loop (orow : OrderRow) (bq : list Unit) (s : Autostore) : Autostore :=
  match bq with
  | [] => s
  | binr :: bq' =>
      if Qltb 0 (a_need s) then autostore_loop orow bq' (autostore_body orow binr s)
      else
        {| a_need := a_need s;
           a_any_autostore := a_any_autostore s;
           a_new_bq := a_new_bq s ++ bq;
           a_allocated_rows := a_allocated_rows s |}
  end.

(** The near-miss marking at the end of a line: every record with the
    line's order id and line id gets the flag [flag]. *)
Definition mark_near_miss (orow : OrderRow) (flag : bool)
    (near_miss_rows : list NearMissRecord) : list NearMissRecord :=
  map (fun r =>
         if String.eqb (nm_OrderID r) (o_order_id orow)
            && String.eqb (nm_OrderRad r) (o_order_line orow)
         then {| nm_Artikel := nm_Artikel r; nm_OrderID := nm_OrderID r;
                 nm_OrderRad := nm_OrderRad r; nm_PallID := nm_PallID r;
                 nm_Kallplats := nm_Kallplats r; nm_Mottagen := nm_Mottagen r;
                 nm_Behov_vid_tillfallet := nm_Behov_vid_tillfallet r;
                 nm_Pall_kvantitet := nm_Pall_kvantitet r;
                 nm_Skillnad := nm_Skillnad r;
                 nm_Procentuell_skillnad := nm_Procentuell_skillnad r;
                 nm_Anledning := nm_Anledning r;
                 nm_Galler := Some flag |}
         else r)
      near_miss_rows.

(** The three stages of one order line, up to the HUVUDPLOCK fallback. *)
Definition run_helpall (st : Store) (orow : OrderRow) : Helpall :=
  let art := strip (o_artikel orow) in
  helpall_loop orow (pallet_queues st art)
    {| h_need := o_qty orow; h_any_helpall := false; h_new_pq := [];
       h_allocated_rows := allocated_rows st;
       h_near_miss_rows := near_miss_rows st |}.

Definition run_autostore (st : Store) (orow : OrderRow) : Autostore :=
  let art := strip (o_artikel orow) in
  let h := run_helpall st orow in
  autostore_loop orow (bin_queues st art)
    {| a_need := h_need h; a_any_autostore := false; a_new_bq := [];
       a_allocated_rows := h_allocated_rows h |}.

(** [any_mainpick] of the line. *)
Definition any_mainpick (st : Store) (orow : OrderRow) : bool :=
  Qltb 0 (a_need (run_autostore st orow)).

(** The flag written on the near-miss records of the line. *)
Definition galler_flag (st : Store) (orow : OrderRow) : bool :=
  negb (h_any_helpall (run_helpall st orow))
  && (a_any_autostore (run_autostore st orow) || any_mainpick st orow).

(** One iteration of [for _, orow in orders.iterrows()]. *)
Definition process_line (st : Store) (orow : OrderRow) : Store :=
  let art := strip (o_artikel orow) in
  let need := o_qty orow in
  if Qle_bool need 0 then st
  else
    let h := run_helpall st orow in
    let a := run_autostore st orow in
    let rows : list AllocatedLine :=
      if Qltb 0 (a_need a) then
        a_allocated_rows a ++
        [ {| sub_orow := orow; sub_qty := a_need a; sub_zon := "A";
             sub_kalltyp := "HUVUDPLOCK"; sub_kalla := ""; sub_kallplats := "" |} ]
      else a_allocated_rows a in
    {| pallet_queues := set_queue (pallet_queues st) art (h_new_pq h);
       bin_queues := set_queue (bin_queues st) art (a_new_bq a);
       allocated_rows := rows;
       near_miss_rows :=
         mark_near_miss orow (galler_flag st orow) (h_near_miss_rows h) |}.

End Allocation.

(* ================================================================== *)
(** ** logic/allocation.py: [allocate] *)

(** [str(x)] for an [int]. *)
Definition str_int (z : Z) : string := NilZero.string_of_int (Z.to_int z).

(** [pd.Timestamp("2262-04-11")], in nanoseconds since the epoch. *)
Definition far_future : Z := 9223286400000000000%Z.

(** A cell of an allocated row seen as a Python value. *)
Inductive value :=
| Text (s : string)
| Number (q : Q).

(** Python truthiness of an optional column name. *)
Definition truthy (c : option string) : bool :=
  match c with
  | Some s => negb (String.eqb s "")
  | None => false
  end.

(** The column name held by a resolved column. *)
Definition col_name (c : option string) : string :=
  match c with
  | Some s => s
  | None => ""
  end.

Section Allocate.
Context {py : PyStr}.

(** [orders[~(_status_num == 35)]], when a status column was found. *)
Definition drop_status_35 (orders_columns : list string)
    (order_status_col : option string) (orders : list OrderRow) : list OrderRow :=
  if truthy order_status_col && str_in (col_name order_status_col) orders_columns then
    filter (fun o => negb (match o_status_num o with
                           | Some n => Z.eqb n 35
                           | None => false
                           end)) orders
  else orders.

(** [status_series.isin(allowed_str) | status_num.isin(allowed)]. *)
Definition status_allowed (allowed : list Z) (r : BufferRow) : bool :=
  str_in (b_status r) (map str_int allowed)
  || match b_status_num r with
     | Some n => existsb (Z.eqb n) allowed
     | None => false
     end.

Definition filter_status (buffer_columns : list string) (allowed : list Z)
    (buff_status_col : option string) (buffer_df : list BufferRow) : list BufferRow :=
  if truthy buff_status_col && str_in (col_name buff_status_col) buffer_columns then
    filter (status_allowed allowed) buffer_df
  else buffer_df.

(** [mask_exclude] of the location filter. *)
Definition mask_exclude (r : BufferRow) : bool :=
  let loc_upper := upper (b_loc r) in
  existsb (startswith loc_upper) INVALID_LOC_PREFIXES
  || str_in loc_upper INVALID_LOC_EXACT.

(** [_is_autostore]: the location contains AUTOSTORE, whatever the case. *)
Definition is_autostore (r : BufferRow) : bool :=
  contains "AUTOSTORE" (upper (b_loc r)).

Definition received_ord (r : BufferRow) : Z :=
  match b_received r with
  | Some t => t
  | None => far_future
  end.

(** Order of [sort_values(by=["_artikel", "_received_ord", "_source_id"])]. *)
Definition buffer_leb (r1 r2 : BufferRow) : bool :=
  match String.compare (b_artikel r1) (b_artikel r2) with
  | Lt => true
  | Gt => false
  | Eq =>
      match Z.compare (received_ord r1) (received_ord r2) with
      | Lt => true
      | Gt => false
      | Eq => String.leb (b_source_id r1) (b_source_id r2)
      end
  end.

Definition unit_of_row (r : BufferRow) : Unit :=
  {| u_source_id := b_source_id r; u_qty := b_qty r; u_loc := b_loc r;
     u_received := b_received r |}.

(** The loops filling [pallet_queues] and [bin_queues]. *)
Definition build_queues (rows : list BufferRow) : string -> list Unit :=
  fold_left
    (fun queues r =>
       let art := strip (b_artikel r) in
       set_queue queues art (queues art ++ [unit_of_row r]))
    rows (fun _ => []).

(** The buffer after the status filter, the location filter and the
    positive-quantity filter. *)
Definition filtered_buffer (buffer_columns : list string)
    (buff_status_col : option string) (buffer_raw : list BufferRow) : list BufferRow :=
  let buffer_df := filter_status buffer_columns ALLOC_BUFFER_STATUSES
                     buff_status_col buffer_raw in
  let buffer_df := filter (fun r => negb (mask_exclude r)) buffer_df in
  filter (fun r => Qltb 0 (b_qty r)) buffer_df.

Definition initial_store (buffer_df : list BufferRow) : Store :=
  let pallets := sort_values buffer_leb (filter (fun r => negb (is_autostore r)) buffer_df) in
  let bins := sort_values buffer_leb (filter is_autostore buffer_df) in
  {| pallet_queues := build_queues pallets;
     bin_queues := build_queues bins;
     allocated_rows := [];
     near_miss_rows := [] |}.

(** The row of [orders] as the dict [orow.to_dict()]. *)
Definition orow_dict (o : OrderRow) : dict value :=
  dict_set "_order_line" (Text (o_order_line o))
    (dict_set "_order_id" (Text (o_order_id o))
       (dict_set "_qty" (Number (o_qty o))
          (dict_set "_artikel" (Text (o_artikel o))
             (map (fun kv => (fst kv, Text (snd kv))) (o_cells o))))).

(** An allocated row as the dict [sub]. *)
Definition sub_dict (order_qty_col : string) (r : AllocatedLine) : dict value :=
  dict_set "Källplats" (Text (sub_kallplats r))
    (dict_set "Källa" (Text (sub_kalla r))
       (dict_set "Källtyp" (Text (sub_kalltyp r))
          (dict_set "Zon (beräknad)" (Text (sub_zon r))
             (dict_set order_qty_col (Number (sub_qty r))
                (orow_dict (sub_orow r)))))).

(** Columns of [pd.DataFrame(rows)] for a list of dicts: the keys in order
    of first appearance. *)
Definition frame_columns (rows : list (dict value)) : list string :=
  fold_left
    (fun cols d => cols ++ filter (fun k => negb (str_in k cols)) (dict_keys d))
    rows [].

Definition py_str (v : value) : string :=
  match v with
  | Text s => s
  | Number q => str_float q
  end.

(** [df[col].astype(str).str.strip()] at one row; a missing cell is NaN. *)
Definition cell_key (order_qty_col col : string) (r : AllocatedLine) : string :=
  strip (match dict_get col (sub_dict order_qty_col r) with
         | Some v => py_str v
         | None => "nan"
         end).

Definition PROMOTION_ARTICLE_NAMES : list string :=
  ["artikel"; "article"; "artnr"; "art.nr"; "artikelnummer"; "_artikel"].

(** [art_col_res] of the promotion pass. *)
Definition promotion_article_column (columns : list string) : option string :=
  let low := lower_index columns in
  first_some (fun n => dict_get (lower n) low) PROMOTION_ARTICLE_NAMES.

(** The rewrite of one row under [mask_change]. *)
Definition promote_row (art_of : AllocatedLine -> string) (auto_arts : list string)
    (r : AllocatedLine) : AllocatedLine :=
  if str_in (art_of r) auto_arts && negb (String.eqb (sub_kalltyp r) "HELPALL") then
    {| sub_orow := sub_orow r; sub_qty := sub_qty r; sub_zon := "R";
       sub_kalltyp := "AUTOSTORE"; sub_kalla := sub_kalla r;
       sub_kallplats := sub_kallplats r |}
  else r.

(** The cross-line pass: an article with an AUTOSTORE row gets all its
    non-HELPALL rows rewritten to AUTOSTORE / R. *)
Definition promote (order_qty_col : string) (rows : list AllocatedLine)
  : list AllocatedLine :=
  match rows with
  | [] => rows
  | _ =>
      let columns := frame_columns (map (sub_dict order_qty_col) rows) in
      let art_col_res := promotion_article_column columns in
      if truthy art_col_res then
        let art_of := cell_key order_qty_col (col_name art_col_res) in
        let auto_arts :=
          map art_of (filter (fun r => String.eqb (sub_kalltyp r) "AUTOSTORE") rows) in
        match auto_arts with
        | [] => rows
        | _ => map (promote_row art_of auto_arts) rows
        end
      else rows
  end.

(** [ordered_cols]. *)
Definition ordered_cols (orders_columns : list string) : list string :=
  orders_columns ++ filter (fun c => negb (str_in c orders_columns)) ADDED_COLS.

(** [pd.DataFrame(near_miss_rows)]. *)
Definition near_miss_frame (rows : list NearMissRecord) : DataFrame NearMissRecord :=
  match rows with
  | [] => {| df_columns := []; df_rows := [] |}
  | _ =>
      {| df_columns :=
           NEAR_MISS_COLUMNS ++
           (if existsb (fun r => match nm_Galler r with Some _ => true | None => false end) rows
            then [GALLER_COLUMN] else []);
         df_rows := rows |}
  end.

(** The loop over the order lines, from the initial queues. *)
Definition allocation_loop (orders : list OrderRow) (st : Store) : Store :=
  fold_left process_line orders st.

(** [allocate(orders_raw, buffer_raw)]. *)
Definition allocate (orders_raw : DataFrame OrderRow) (buffer_raw : DataFrame BufferRow)
  : result (DataFrame AllocatedLine * DataFrame NearMissRecord) :=
  let ocols := df_columns orders_raw in
  let bcols := df_columns buffer_raw in
  order_article_col <- find_col ocols Schemas.ORDER_artikel true None ;;
  order_qty_col <- find_col ocols Schemas.ORDER_qty true None ;;
  order_id_col <- find_col ocols Schemas.ORDER_ordid false None ;;
  order_line_col <- find_col ocols Schemas.ORDER_radid false None ;;
  order_status_col <- find_col ocols Schemas.ORDER_status false None ;;
  buff_article_col <- find_col bcols Schemas.BUFFER_artikel true None ;;
  buff_qty_col <- find_col bcols Schemas.BUFFER_qty true None ;;
  buff_loc_col <- find_col bcols Schemas.BUFFER_loc true None ;;
  buff_dt_col <- find_col bcols Schemas.BUFFER_dt false None ;;
  buff_id_col <- find_col bcols Schemas.BUFFER_id false None ;;
  buff_status_col <- find_col bcols Schemas.BUFFER_status false None ;;
  let orders := drop_status_35 ocols order_status_col (df_rows orders_raw) in
  let buffer_df := filtered_buffer bcols buff_status_col (df_rows buffer_raw) in
  let st := allocation_loop orders (initial_store buffer_df) in
  let allocated := promote (col_name order_qty_col) (allocated_rows st) in
  Ok ({| df_columns := ordered_cols ocols; df_rows := allocated |},
      near_miss_frame (near_miss_rows st)).

End Allocate.

(* ================================================================== *)
(** ** logic/refill.py: [calculate_refill] *)

(** A row of the normalised pick-face stock ([normalize_saldo]). *)
Record SaldoRow := mkSaldoRow {
  s_Artikel : string;
  s_Plocksaldo : Q;
  s_Plockplats : string
}.

(** A row of the not-put-away table: article cell and numeric quantity. *)
Record NpuRow := mkNpuRow {
  npu_artikel : string;
  npu_antal : Q
}.

(** A row of a refill report; [r_Zon] is absent in the AUTOSTORE report. *)
Record RefillRow := mkRefillRow {
  r_Artikel : string;
  r_Zon : option string;
  r_Behov : Z;                  (* "Behov (kolli)" *)
  r_FIFO : Z;                   (* "FIFO-baserad beräkning" *)
  r_Tillrackligt : string;      (* "Tillräckligt tillgängligt saldo i buffert" *)
  r_Plockplats : string;
  r_Ej_inlagrade : Z            (* "Ej inlagrade (antal)" *)
}.

Definition REFILL_HP_COLUMNS : list string :=
  ["Artikel"; "Zon"; "Behov (kolli)"; "FIFO-baserad beräkning";
   "Tillräckligt tillgängligt saldo i buffert"; "Plockplats"; "Ej inlagrade (antal)"].

Definition REFILL_AS_COLUMNS : list string :=
  ["Artikel"; "Behov (kolli)"; "FIFO-baserad beräkning";
   "Tillräckligt tillgängligt saldo i buffert"; "Plockplats"; "Ej inlagrade (antal)"].

(** [pd.DataFrame(rows)] for rows that all carry the keys [columns]. *)
Definition frame_of {R} (columns : list string) (rows : list R) : DataFrame R :=
  match rows with
  | [] => {| df_columns := []; df_rows := [] |}
  | _ => {| df_columns := columns; df_rows := rows |}
  end.

(** The counting loop over the FIFO quantities. *)
Fixpoint fifo_count (qtys : list Q) (behov_kvar : Q) (pall_count : Z) : Z :=
  match qtys with
  | [] => pall_count
  | q :: qtys' =>
      if Qle_bool behov_kvar 0 then pall_count
      else fifo_count qtys' (behov_kvar - q) (pall_count + 1)
  end.

(** [parts[0][1] += diff]. *)
Definition add_to_first (diff : Z) (parts : list (string * Z)) : list (string * Z) :=
  match parts with
  | [] => []
  | (zone, val) :: rest => (zone, (val + diff)%Z) :: rest
  end.

Section Refill.
Context {py : PyStr}.

(** The article and the quantity read from a row of the allocation result:
    [find_col] resolves on it the columns [allocate] resolved on the orders,
    so the cells are the line's article and its allocated quantity. *)
Definition res_art (r : AllocatedLine) : string := o_artikel (sub_orow r).
Definition res_qty (r : AllocatedLine) : Q := sub_qty r.

(** [used_help_ids]. *)
Definition used_help_ids (result : DataFrame AllocatedLine) : list string :=
  if str_in "Källtyp" (df_columns result) && str_in "Källa" (df_columns result) then
    map sub_kalla
      (filter (fun r => String.eqb (sub_kalltyp r) "HELPALL") (df_rows result))
  else [].

(** The loop filling [saldo_sum] and [plockplats_by_art]. *)
Definition saldo_tables (s_norm : list SaldoRow) : dict Q * dict string :=
  fold_left
    (fun (acc : dict Q * dict string) r =>
       let art := strip (s_Artikel r) in
       let saldo_sum :=
         dict_set art (dict_get_default art 0 (fst acc) + s_Plocksaldo r) (fst acc) in
       let pp := strip (s_Plockplats r) in
       let plockplats_by_art :=
         if negb (String.eqb pp "")
            && match dict_get art (snd acc) with Some _ => false | None => true end
         then dict_set art pp (snd acc) else snd acc in
       (saldo_sum, plockplats_by_art))
    s_norm ([], []).

(** [npu_sum]: the quantities summed per stripped article. *)
Definition npu_table (npu : list NpuRow) : dict Q :=
  fold_left
    (fun d r =>
       let art := strip (npu_artikel r) in
       dict_set art (dict_get_default art 0 d + npu_antal r) d)
    npu [].

(** Order of [sort_values("_received")]: NaT last. *)
Definition received_leb (r1 r2 : BufferRow) : bool :=
  match b_received r1, b_received r2 with
  | Some t1, Some t2 => Z.leb t1 t2
  | Some _, None => true
  | None, Some _ => false
  | None, None => true
  end.

(** [fifo_for_art(art_key)] over the status-filtered buffer [b]. *)
Definition fifo_for_art (b : list BufferRow) (used : list string) (art_key : string)
  : list BufferRow :=
  let d := filter (fun r => String.eqb (b_artikel r) art_key) b in
  let d :=
    match d, used with
    | _ :: _, _ :: _ => filter (fun r => negb (str_in (b_source_id r) used)) d
    | _, _ => d
    end in
  sort_values received_leb d.


Definition ja_nej (b : bool) : string := if b then "Ja" else "Nej".

(** [_zon] of a main-pick or bulky line. *)
Definition zon_of (r : AllocatedLine) : string :=
  if String.eqb (sub_kalltyp r) "SKRYMMANDE" then "S" else "A".

(** The group keys of [groupby], sorted and without repetition. *)
Definition group_keys (keys : list string) : list string :=
  sort_values String.leb (nodup string_dec keys).

(** The rows of [needs] for one article: one per zone present, in the order
    of the zone names, with the quantities summed. *)
Definition needs_of (hp_like : list AllocatedLine) (art : string) : list (string * Q) :=
  let of_art := filter (fun r => String.eqb (res_art r) art) hp_like in
  map (fun zone =>
         (zone, Qsum (map res_qty (filter (fun r => String.eqb (zon_of r) zone) of_art))))
      (group_keys (map zon_of of_art)).

(** [adjusted_total]: the article's shortfall. *)
Definition adjusted_total (saldo_sum : dict Q) (art_key : string) (total_need : Q) : Q :=
  py_max 0 (inject_Z (py_round total_need) - dict_get_default art_key 0 saldo_sum).

(** The zone parts of an article before the remainder is assigned. *)
Definition rounded_parts (grp_art : list (string * Q)) (total_need adjusted : Q)
  : list (string * Z) :=
  map (fun r : string * Q =>
         let part := if Qltb 0 total_need then (snd r / total_need) * adjusted else 0 in
         (fst r, py_round part))
      grp_art.

(** [parts] after [parts[0][1] += diff]. *)
Definition zone_parts (grp_art : list (string * Q)) (total_need adjusted : Q)
  : list (string * Z) :=
  let parts := rounded_parts grp_art total_need adjusted in
  let allocated_sum := Zsum (map snd parts) in
  let diff := (py_int adjusted - allocated_sum)%Z in
  add_to_first diff parts.

(** The rows emitted for one article of the main-pick branch. *)
Definition hp_rows_of_art (b : list BufferRow) (used : list string)
    (saldo_sum : dict Q) (plockplats_by_art : dict string) (npu_sum : dict Q)
    (hp_like : list AllocatedLine) (art_key : string) : list RefillRow :=
  let grp_art := needs_of hp_like art_key in
  let total_need := Qsum (map snd grp_art) in
  if Qle_bool total_need 0 then []
  else
    let adjusted := adjusted_total saldo_sum art_key total_need in
    if Qle_bool adjusted 0 then []
    else
      let parts := zone_parts grp_art total_need adjusted in
      let fifo_df := fifo_for_art b used art_key in
      let avail := Qsum (map b_qty fifo_df) in
      flat_map
        (fun p : string * Z =>
           let behov_int := Z.max 0 (snd p) in
           if Z.leb behov_int 0 then []
           else
             [ {| r_Artikel := art_key;
                  r_Zon := Some (fst p);
                  r_Behov := behov_int;
                  r_FIFO := fifo_count (map b_qty fifo_df) (inject_Z behov_int) 0;
                  r_Tillrackligt := ja_nej (Qle_bool (inject_Z behov_int) avail);
                  r_Plockplats := dict_get_default art_key "" plockplats_by_art;
                  r_Ej_inlagrade := py_round (dict_get_default art_key 0 npu_sum) |} ])
        parts.

(** Order of [sort_values(["Zon", "FIFO-baserad beräkning"], ascending=[True, False])]. *)
Definition hp_leb (r1 r2 : RefillRow) : bool :=
  let z1 := match r_Zon r1 with Some z => z | None => "" end in
  let z2 := match r_Zon r2 with Some z => z | None => "" end in
  match String.compare z1 z2 with
  | Lt => true
  | Gt => false
  | Eq => Z.leb (r_FIFO r2) (r_FIFO r1)
  end.

(** Order of [sort_values("FIFO-baserad beräkning", ascending=False)]. *)
Definition as_leb (r1 r2 : RefillRow) : bool := Z.leb (r_FIFO r2) (r_FIFO r1).

(** [rows_hp], in the order of the articles of [needs]. *)
Definition rows_hp (b : list BufferRow) (used : list string)
    (saldo_sum : dict Q) (plockplats_by_art : dict string) (npu_sum : dict Q)
    (result : list AllocatedLine) : list RefillRow :=
  let hp_like :=
    filter (fun r => str_in (sub_kalltyp r) ["HUVUDPLOCK"; "SKRYMMANDE"]) result in
  flat_map (hp_rows_of_art b used saldo_sum plockplats_by_art npu_sum hp_like)
    (group_keys (map res_art hp_like)).

(** The article's shortfall in the AUTOSTORE branch. *)
Definition as_behov_int (saldo_sum : dict Q) (art_key : string) (behov : Q) : Z :=
  py_int (py_max 0 (inject_Z (py_round behov) - dict_get_default art_key 0 saldo_sum)).

(** [rows_as]: one row per article with promoted AUTOSTORE lines. *)
Definition rows_as (b : list BufferRow) (used : list string)
    (saldo_sum : dict Q) (plockplats_by_art : dict string) (npu_sum : dict Q)
    (result : list AllocatedLine) : list RefillRow :=
  let as_df :=
    filter (fun r => String.eqb (sub_kalltyp r) "AUTOSTORE"
                     && String.eqb (strip (sub_kalla r)) "") result in
  flat_map
    (fun art =>
       let behov := Qsum (map res_qty (filter (fun r => String.eqb (res_art r) art) as_df)) in
       let art_key := strip art in
       let fifo_df := fifo_for_art b used art_key in
       let avail := Qsum (map b_qty fifo_df) in
       let behov_int := as_behov_int saldo_sum art_key behov in
       if Z.leb behov_int 0 then []
       else
         [ {| r_Artikel := art_key;
              r_Zon := None;
              r_Behov := behov_int;
              r_FIFO := fifo_count (map b_qty fifo_df) (inject_Z behov_int) 0;
              r_Tillrackligt := ja_nej (Qle_bool (inject_Z behov_int) avail);
              r_Plockplats := dict_get_default art_key "" plockplats_by_art;
              r_Ej_inlagrade := py_round (dict_get_default art_key 0 npu_sum) |} ])
    (group_keys (map res_art as_df)).

(** [calculate_refill(allocated_df, buffer_raw, saldo_df, not_putaway_df)];
    [s_norm] is the normalised pick-face stock and [npu] the backlog, both
    empty when the table is absent, empty or unreadable. *)
Definition calculate_refill (allocated_df : DataFrame AllocatedLine)
    (buffer_raw : DataFrame BufferRow) (s_norm : list SaldoRow) (npu : list NpuRow)
  : result (DataFrame RefillRow * DataFrame RefillRow) :=
  let rcols := df_columns allocated_df in
  let bcols := df_columns buffer_raw in
  art_col_res <- find_col rcols Schemas.ORDER_artikel true None ;;
  qty_col_res <- find_col rcols Schemas.ORDER_qty true None ;;
  art_col_buf <- find_col bcols Schemas.BUFFER_artikel true None ;;
  qty_col_buf <- find_col bcols Schemas.BUFFER_qty true None ;;
  dt_col_buf <- find_col bcols Schemas.BUFFER_dt false None ;;
  id_col_buf <- find_col bcols Schemas.BUFFER_id false None ;;
  status_col_buf <- find_col bcols Schemas.BUFFER_status false None ;;
  let b := filter_status bcols REFILL_BUFFER_STATUSES status_col_buf (df_rows buffer_raw) in
  let used := used_help_ids allocated_df in
  let saldo_sum := fst (saldo_tables s_norm) in
  let plockplats_by_art := snd (saldo_tables s_norm) in
  let npu_sum := npu_table npu in
  let hp := rows_hp b used saldo_sum plockplats_by_art npu_sum (df_rows allocated_df) in
  let asr := rows_as b used saldo_sum plockplats_by_art npu_sum (df_rows allocated_df) in
  Ok (frame_of REFILL_HP_COLUMNS (sort_values hp_leb hp),
      frame_of REFILL_AS_COLUMNS (sort_values as_leb asr)).

End Refill.

(* ================================================================== *)
(** ** An instance of the string operations, for running the model

    ASCII case mapping, stripping of blanks, quoting without escapes and
    the rendering of integer-valued floats. *)

Definition ascii_lower (c : ascii) : ascii :=
  let n := nat_of_ascii c in
  if Nat.leb 65 n && Nat.leb n 90 then ascii_of_nat (n + 32) else c.

Definition ascii_upper (c : ascii) : ascii :=
  let n := nat_of_ascii c in
  if Nat.leb 97 n && Nat.leb n 122 then ascii_of_nat (n - 32) else c.

Fixpoint string_map (f : ascii -> ascii) (s : string) : string :=
  match s with
  | EmptyString => EmptyString
  | String c s' => String (f c) (string_map f s')
  end.

Definition is_blank (c : ascii) : bool :=
  let n := nat_of_ascii c in
  Nat.eqb n 32 || (Nat.leb 9 n && Nat.leb n 13).

Fixpoint lstrip (s : string) : string :=
  match s with
  | EmptyString => EmptyString
  | String c s' => if is_blank c then lstrip s' else s
  end.

Fixpoint rstrip (s : string) : string :=
  match s with
  | EmptyString => EmptyString
  | String c s' =>
      match rstrip s' with
      | EmptyString => if is_blank c then EmptyString else String c EmptyString
      | t => String c t
      end
  end.

Definition ascii_py : PyStr :=
  {| lower := string_map ascii_lower;
     upper := string_map ascii_upper;
     strip := fun s => rstrip (lstrip s);
     repr_str := fun s => ("'" ++ s ++ "'")%string;
     str_float := fun q => (str_int (Qfloor q) ++ ".0")%string |}.

(* ================================================================== *)
(** ** Notions used to state the properties *)

Section Notions.
Context {py : PyStr}.

(** The allocated lines appended while the line [orow] is processed in the
    store [st]. *)
Definition emitted_for (st : Store) (orow : OrderRow) : list AllocatedLine :=
  skipn (List.length (allocated_rows st)) (allocated_rows (process_line st orow)).


(** The near-miss records appended during the HELPALL stage of the line. *)
Definition near_misses_for (st : Store) (orow : OrderRow) : list NearMissRecord :=
  skipn (List.length (near_miss_rows st)) (h_near_miss_rows (run_helpall st orow)).

(** Whether the line got at least one allocated line of the given type. *)
Definition line_used (st : Store) (orow : OrderRow) (kalltyp : string) : bool :=
  existsb (fun r => String.eqb (sub_kalltyp r) kalltyp) (emitted_for st orow).


(** A line emitted by the HELPALL stage for [orow] from one of [pallets]. *)
Definition helpall_line (orow : OrderRow) (pallets : list Unit) (r : AllocatedLine) : Prop :=
  sub_orow r = orow /\ sub_kalltyp r = "HELPALL" /\ sub_zon r = "H"
  /\ exists pal, In pal pallets /\ sub_qty r = u_qty pal
                 /\ sub_kalla r = u_source_id pal /\ sub_kallplats r = u_loc pal.

(** A line emitted by the AUTOSTORE stage for [orow]. *)
Definition autostore_line (orow : OrderRow) (r : AllocatedLine) : Prop :=
  sub_orow r = orow /\ sub_kalltyp r = "AUTOSTORE" /\ sub_zon r = "R"
  /\ 0 < sub_qty r.

(** The line emitted by the HUVUDPLOCK stage for [orow]. *)
Definition mainpick_line (orow : OrderRow) (r : AllocatedLine) : Prop :=
  sub_orow r = orow /\ sub_kalltyp r = "HUVUDPLOCK" /\ sub_zon r = "A"
  /\ sub_kalla r = "" /\ sub_kallplats r = "" /\ 0 < sub_qty r.

(** Non-emptiness of a list, as a boolean. *)
Definition nonempty {A} (l : list A) : bool := negb (Nat.eqb (List.length l) 0).

(** [l1] is [l2] with some elements removed, the order kept. *)
Inductive subseq {A} : list A -> list A -> Prop :=
| subseq_nil : subseq [] []
| subseq_skip x l1 l2 : subseq l1 l2 -> subseq l1 (x :: l2)
| subseq_keep x l1 l2 : subseq l1 l2 -> subseq (x :: l1) (x :: l2).

(** The queues hold positive quantities only and so do the lines emitted. *)
Definition positive_store (st : Store) : Prop :=
  (forall art, Forall (fun u => 0 < u_qty u) (pallet_queues st art))
  /\ (forall art, Forall (fun u => 0 < u_qty u) (bin_queues st art))
  /\ Forall (fun r => 0 < sub_qty r) (allocated_rows st).

(** Source id, quantity and location of a queue entry, and of the buffer
    unit an allocated line was taken from. *)
Definition unit_key (u : Unit) : string * Q * string :=
  (u_source_id u, u_qty u, u_loc u).
Definition line_key (r : AllocatedLine) : string * Q * string :=
  (sub_kalla r, sub_qty r, sub_kallplats r).

(** The near-miss condition for a pallet of quantity [pal_qty] against the
    remaining need [need]. *)
Definition near_miss_condition (pal_qty need : Q) : Prop :=
  need < pal_qty /\ (pal_qty - need) / need <= NEAR_MISS_PCT.

(** A near-miss record written for the line [orow] about one of [pallets]. *)
Definition near_miss_of (orow : OrderRow) (pallets : list Unit) (r : NearMissRecord) : Prop :=
  nm_Artikel r = o_artikel orow
  /\ nm_OrderID r = o_order_id orow
  /\ nm_OrderRad r = o_order_line orow
  /\ nm_Galler r = None
  /\ 0 < nm_Behov_vid_tillfallet r
  /\ near_miss_condition (nm_Pall_kvantitet r) (nm_Behov_vid_tillfallet r)
  /\ nm_Skillnad r = nm_Pall_kvantitet r - nm_Behov_vid_tillfallet r
  /\ nm_Procentuell_skillnad r = nm_Skillnad r / nm_Behov_vid_tillfallet r * 100
  /\ exists pal, In pal pallets /\ nm_PallID r = u_source_id pal
                 /\ nm_Kallplats r = u_loc pal /\ nm_Pall_kvantitet r = u_qty pal.



(** The buffer snapshot of [calculate_refill]: the rows with an allowed
    status, when a status column is found. *)
Definition refill_buffer {py : PyStr} (buffer_raw : DataFrame BufferRow) : list BufferRow :=
  filter_status (df_columns buffer_raw) REFILL_BUFFER_STATUSES
    (match find_col (df_columns buffer_raw) Schemas.BUFFER_status false None with
     | Ok c => c
     | Raise _ => None
     end)
    (df_rows buffer_raw).


(** The main-pick and bulky lines of the allocation result. *)
Definition hp_like_of (allocated_df : DataFrame AllocatedLine) : list AllocatedLine :=
  filter (fun r => str_in (sub_kalltyp r) ["HUVUDPLOCK"; "SKRYMMANDE"])
    (df_rows allocated_df).


(** Total demand of an article over its main-pick and bulky groups. *)
Definition total_need (allocated_df : DataFrame AllocatedLine) (art : string) : Q :=
  Qsum (map snd (needs_of (hp_like_of allocated_df) art)).




(** A logical field can be resolved in a table when some column name
    contains one of its candidates, up to case. *)
Definition resolvable (columns candidates : list string) : Prop :=
  exists c cand, In c columns /\ In cand candidates
                 /\ contains (lower cand) (lower c) = true.


End Notions.

(* ================================================================== *)
(** ** Example data *)

Module Ex.

(** An order line for article X of order O1. *)
Definition line (radnr : string) (need : Q) : OrderRow :=
  {| o_cells := [("Artikel", "X"); ("Antal", ""); ("Ordernr", "O1"); ("Radnr", radnr)];
     o_artikel := "X"; o_qty := need; o_order_id := "O1"; o_order_line := radnr;
     o_status_num := None |}.

(** A buffer unit of article X. *)
Definition unit (id : string) (qty : Q) (loc : string) : Unit :=
  {| u_source_id := id; u_qty := qty; u_loc := loc; u_received := None |}.

(** A store whose queues for article X are the given ones. *)
Definition store (pallets bins : list Unit) : Store :=
  {| pallet_queues := set_queue (fun _ => []) "X" pallets;
     bin_queues := set_queue (fun _ => []) "X" bins;
     allocated_rows := [];
     near_miss_rows := [] |}.

Definition ORDER_COLUMNS : list string := ["Artikel"; "Antal"; "Ordernr"; "Radnr"].
Definition BUFFER_COLUMNS : list string := ["Artikel"; "Antal"; "Lagerplats"; "PallID"].

(** A buffer row of article X without status column. *)
Definition buffer_row (id : string) (qty : Q) (loc : string) : BufferRow :=
  {| b_artikel := "X"; b_qty := qty; b_loc := loc; b_received := None;
     b_source_id := id; b_status := ""; b_status_num := None |}.

(** The order table with the given (line id, need) lines of article X, and
    the buffer table with the given (id, quantity, location) units. *)
Definition orders (needs : list (string * Q)) : DataFrame OrderRow :=
  {| df_columns := ORDER_COLUMNS;
     df_rows := map (fun p => line (fst p) (snd p)) needs |}.

Definition buffer (units : list (string * Q * string)) : DataFrame BufferRow :=
  {| df_columns := BUFFER_COLUMNS;
     df_rows := map (fun u => buffer_row (fst (fst u)) (snd (fst u)) (snd u)) units |}.

(** Scenario D of the refill calculation: demand 7 in zone A and 3 in
    zone S for article X, pick-face stock 2, and one buffer unit of 5. *)
Definition refill_line (typ : string) (q : Q) : AllocatedLine :=
  {| sub_orow := line "1" 10; sub_qty := q; sub_zon := "A"; sub_kalltyp := typ;
     sub_kalla := ""; sub_kallplats := "" |}.





End Ex.

(* ================================================================== *)
(** ** logic/refill.py: [_reclassify_skrymmande] *)

(** A line rewritten to the bulky-goods type and zone. *)
Definition as_skrymmande (r : AllocatedLine) : AllocatedLine :=
  {| sub_orow := sub_orow r; sub_qty := sub_qty r; sub_zon := "S";
     sub_kalltyp := "SKRYMMANDE"; sub_kalla := sub_kalla r;
     sub_kallplats := sub_kallplats r |}.

Section Reclassify.
Context {py : PyStr}.

(** [pp_map]: the first non-empty pick-face location of each article. *)
Definition pp_map_of (saldo_norm : list SaldoRow) : dict string :=
  fold_left
    (fun pp_map r =>
       let a := strip (s_Artikel r) in
       let p := strip (s_Plockplats r) in
       if negb (String.eqb a "") && negb (String.eqb p "")
          && match dict_get a pp_map with Some _ => false | None => true end
       then dict_set a p pp_map else pp_map)
    saldo_norm [].

(** [mask]: lines without source of type HUVUDPLOCK or AUTOSTORE; a column
    that is missing reads as the empty string. *)
Definition reclassify_mask (columns : list string) (r : AllocatedLine) : bool :=
  let ktyp := if str_in "Källtyp" columns then sub_kalltyp r else "" in
  let kalla := if str_in "Källa" columns then sub_kalla r else "" in
  String.eqb (strip kalla) "" && str_in ktyp ["HUVUDPLOCK"; "AUTOSTORE"].

(** [cond]: the pick-face location of the line's article starts with SK
    or contains BRAND, whatever the case. *)
Definition reclassify_cond (pp_map : dict string) (r : AllocatedLine) : bool :=
  let pp_up := upper (dict_get_default (res_art r) "" pp_map) in
  startswith pp_up "SK" || contains "BRAND" pp_up.

(** A line of a table that had no zone column, after the column is added. *)
Definition blank_zone (r : AllocatedLine) : AllocatedLine :=
  {| sub_orow := sub_orow r; sub_qty := sub_qty r; sub_zon := "";
     sub_kalltyp := sub_kalltyp r; sub_kalla := sub_kalla r;
     sub_kallplats := sub_kallplats r |}.

(** One line after the assignments at [idx]. *)
Definition reclassify_row (columns : list string) (pp_map : dict string)
    (add_zone : bool) (r : AllocatedLine) : AllocatedLine :=
  if reclassify_mask columns r && reclassify_cond pp_map r then as_skrymmande r
  else if add_zone then blank_zone r else r.

(** [_reclassify_skrymmande(result_df, saldo_norm)]; [saldo_norm] is empty
    when the table is absent or empty.  A table is [empty] when it has no
    rows or no columns.  The rows of [result_df] carry the labels of a fresh
    table, as the result of [allocate] does. *)
Definition _reclassify_skrymmande (result_df : DataFrame AllocatedLine)
    (saldo_norm : list SaldoRow) : result (DataFrame AllocatedLine) :=
  if df_empty result_df
     || match df_columns result_df with [] => true | _ => false end
  then Ok result_df
  else
    match saldo_norm with
    | [] => Ok result_df
    | _ =>
        art_col <- find_col (df_columns result_df) Schemas.ORDER_artikel true None ;;
        let pp_map := pp_map_of saldo_norm in
        match pp_map with
        | [] => Ok result_df
        | _ =>
            let columns := df_columns result_df in
            if negb (existsb (reclassify_mask columns) (df_rows result_df))
            then Ok result_df
            else
              let changed :=
                existsb (fun r => reclassify_mask columns r && reclassify_cond pp_map r)
                  (df_rows result_df) in
              let add_zone := changed && negb (str_in "Zon (beräknad)" columns) in
              Ok {| df_columns :=
                      if add_zone then columns ++ ["Zon (beräknad)"] else columns;
                    df_rows :=
                      map (reclassify_row columns pp_map add_zone) (df_rows result_df) |}
        end
    end.

(** The pick-face location of an article in the words of the rule: the
    first non-blank location among the rows of the article, read up to
    surrounding blanks; none for the article with the empty name. *)
Definition pick_location (saldo_norm : list SaldoRow) (art : string) : string :=
  if String.eqb art "" then ""
  else
    match find (fun s => String.eqb (strip (s_Artikel s)) art
                         && negb (String.eqb (strip (s_Plockplats s)) ""))
            saldo_norm with
    | Some s => strip (s_Plockplats s)
    | None => ""
    end.

(** A bulky-goods location: it starts with SK or contains BRAND, whatever
    the case. *)
Definition bulky_location (p : string) : bool :=
  negb (String.eqb p "")
  && (startswith (upper p) "SK" || contains "BRAND" (upper p)).

(** The rule of the reclassification for one line. *)
Definition reclassified (columns : list string) (saldo_norm : list SaldoRow)
    (r : AllocatedLine) : AllocatedLine :=
  if reclassify_mask columns r && bulky_location (pick_location saldo_norm (res_art r))
  then as_skrymmande r else r.

End Reclassify.

(* ================================================================== *)
(** ** utils/common.py: [to_num]

    A cell is a text or missing ([None], the NaN of a table read as text).
    Digits are the ASCII digits. *)

Definition is_digit (c : ascii) : bool :=
  let n := nat_of_ascii c in Nat.leb 48 n && Nat.leb n 57.










Definition digit_value (c : ascii) : Z := Z.of_nat (nat_of_ascii c - 48).

(** The number written by a string of digits, after the digits [acc]. *)
Fixpoint digits_value (acc : Z) (s : string) : Z :=
  match s with
  | EmptyString => acc
  | String c s' => digits_value (10 * acc + digit_value c) s'
  end.



(** A string of digits. *)
Fixpoint all_digits (s : string) : bool :=
  match s with
  | EmptyString => true
  | String c s' => is_digit c && all_digits s'
  end.







(* ================================================================== *)
(** ** gui/app.py: the summary per source type *)

Section Summary.
Context {py : PyStr}.



End Summary.

(* ================================================================== *)
(** ** Notions used to state the further properties *)

Section FurtherNotions.
Context {py : PyStr}.

(** An optional column as [find_col] resolves it. *)
Definition optional_col (columns candidates : list string) : option string :=
  match find_col columns candidates false None with
  | Ok c => c
  | Raise _ => None
  end.

(** The order lines [allocate] processes: not of status 35, need > 0. *)
Definition processed_orders (orders_raw : DataFrame OrderRow) : list OrderRow :=
  filter (fun o => Qltb 0 (o_qty o))
    (drop_status_35 (df_columns orders_raw)
       (optional_col (df_columns orders_raw) Schemas.ORDER_status)
       (df_rows orders_raw)).

(** The buffer rows [allocate] builds its queues from. *)
Definition allocation_buffer (buffer_raw : DataFrame BufferRow) : list BufferRow :=
  filtered_buffer (df_columns buffer_raw)
    (optional_col (df_columns buffer_raw) Schemas.BUFFER_status)
    (df_rows buffer_raw).

(** The store [allocate] starts from. *)
Definition start_store (buffer_raw : DataFrame BufferRow) : Store :=
  initial_store (allocation_buffer buffer_raw).

(** The HELPALL lines of the order lines of an article, by source. *)
Definition helpall_sources (art : string) (rows : list AllocatedLine)
  : list (string * Q * string) :=
  map line_key
    (filter (fun r => String.eqb (sub_kalltyp r) "HELPALL"
                      && String.eqb (strip (o_artikel (sub_orow r))) art) rows).

(** The main-pick line of an order line. *)
Definition mainpick_row (orow : OrderRow) (qty : Q) : AllocatedLine :=
  {| sub_orow := orow; sub_qty := qty; sub_zon := "A";
     sub_kalltyp := "HUVUDPLOCK"; sub_kalla := ""; sub_kallplats := "" |}.

(** Type and zone of a line go together. *)
Definition type_zone_ok (r : AllocatedLine) : Prop :=
  (sub_kalltyp r = "HELPALL" /\ sub_zon r = "H")
  \/ (sub_kalltyp r = "AUTOSTORE" /\ sub_zon r = "R")
  \/ (sub_kalltyp r = "HUVUDPLOCK" /\ sub_zon r = "A"
      /\ sub_kalla r = "" /\ sub_kallplats r = "").



(** A buffer row that passes the filters of [allocate] and is stored
    outside the automated storage. *)
Definition pallet_row (buffer_raw : DataFrame BufferRow) (b : BufferRow) : Prop :=
  In b (df_rows buffer_raw)
  /\ 0 < b_qty b
  /\ mask_exclude b = false
  /\ is_autostore b = false
  /\ (truthy (optional_col (df_columns buffer_raw) Schemas.BUFFER_status)
      && str_in (col_name (optional_col (df_columns buffer_raw) Schemas.BUFFER_status))
           (df_columns buffer_raw) = true ->
      status_allowed ALLOC_BUFFER_STATUSES b = true).



(** The reception time a unit is ordered by: a missing time counts as the
    far future. *)
Definition unit_ord (u : Unit) : Z :=
  match u_received u with
  | Some t => t
  | None => far_future
  end.

(** First in, first out: by reception time, then by id. *)
Definition fifo_leb (u1 u2 : Unit) : bool :=
  match Z.compare (unit_ord u1) (unit_ord u2) with
  | Lt => true
  | Gt => false
  | Eq => String.leb (u_source_id u1) (u_source_id u2)
  end.




End FurtherNotions.

(* ================================================================== *)
(** * Properties *)

(** ** Arithmetic and list facts *)

Lemma Qltb_true (a b : Q) : Qltb a b = true <-> a < b.
Proof.
  unfold Qltb. rewrite negb_true_iff.
  split; intro H.
  - apply Qnot_le_lt. intro Hle. apply Qle_bool_iff in Hle. congruence.
  - destruct (Qle_bool b a) eqn:E; [|reflexivity].
    apply Qle_bool_iff in E. lra.
Qed.

Lemma Qltb_false (a b : Q) : Qltb a b = false <-> b <= a.
Proof.
  unfold Qltb. rewrite negb_false_iff. apply Qle_bool_iff.
Qed.

Lemma Qle_bool_false (a b : Q) : Qle_bool a b = false <-> b < a.
Proof.
  rewrite <- Qltb_true. unfold Qltb.
  destruct (Qle_bool a b); simpl; intuition congruence.
Qed.

(** Case analysis on the boolean comparisons of a goal or hypothesis. *)
Ltac qcases :=
  repeat match goal with
  | |- context [Qle_bool ?a ?b] =>
      let E := fresh "E" in
      destruct (Qle_bool a b) eqn:E;
      [apply Qle_bool_iff in E | apply Qle_bool_false in E]
  | |- context [Qltb ?a ?b] =>
      let E := fresh "E" in
      destruct (Qltb a b) eqn:E;
      [apply Qltb_true in E | apply Qltb_false in E]
  end.

Lemma Qsum_app (l1 l2 : list Q) : Qsum (l1 ++ l2) == Qsum l1 + Qsum l2.
Proof.
  induction l1 as [|x l1 IH]; simpl.
  - lra.
  - rewrite IH. lra.
Qed.

Lemma skipn_length_app {A} (l d : list A) : skipn (List.length l) (l ++ d) = d.
Proof.
  induction l as [|x l IH]; simpl; auto.
Qed.

Lemma py_min_cases (a b : Q) :
  (b < a /\ py_min a b = b) \/ (a <= b /\ py_min a b = a).
Proof.
  unfold py_min. qcases; auto.
Qed.

Lemma subseq_refl {A} (l : list A) : subseq l l.
Proof. induction l; [apply subseq_nil | apply subseq_keep; assumption]. Qed.

Lemma subseq_nil_l {A} (l : list A) : subseq [] l.
Proof. induction l; constructor; auto. Qed.

Lemma subseq_in {A} (l1 l2 : list A) x : subseq l1 l2 -> In x l1 -> In x l2.
Proof.
  induction 1; simpl; intuition.
Qed.

Lemma subseq_Forall {A} (P : A -> Prop) (l1 l2 : list A) :
  subseq l1 l2 -> Forall P l2 -> Forall P l1.
Proof.
  rewrite !Forall_forall. intros Hs H x Hx. eapply H, subseq_in; eauto.
Qed.

(** ** The HELPALL loop *)

Section HelpallFacts.
Context {py : PyStr}.

Lemma helpall_line_incl orow l1 l2 r :
  incl l1 l2 -> helpall_line orow l1 r -> helpall_line orow l2 r.
Proof.
  intros Hi (H1 & H2 & H3 & pal & Hin & H4). repeat split; auto.
  exists pal. split; auto.
Qed.

(** The need stays non-negative. *)
Lemma helpall_loop_nonneg orow tmp : forall s,
  0 <= h_need s -> 0 <= h_need (helpall_loop orow tmp s).
Proof.
  induction tmp as [|pal tmp IH]; intros s Hs; simpl; auto.
  destruct (Qltb 0 (h_need s)) eqn:Hneed; simpl; auto.
  apply IH. unfold helpall_body.
  destruct (Qle_bool (u_qty pal) (h_need s)) eqn:Hfit; simpl; auto.
  apply Qle_bool_iff in Hfit. lra.
Qed.

(** With positive pallets the need never grows. *)
Lemma helpall_loop_need_le orow tmp : forall s,
  Forall (fun u => 0 < u_qty u) tmp ->
  h_need (helpall_loop orow tmp s) <= h_need s.
Proof.
  induction tmp as [|pal tmp IH]; intros s Hpos; simpl.
  - lra.
  - inversion Hpos as [|? ? Hpal Htmp]; subst.
    destruct (Qltb 0 (h_need s)) eqn:Hneed; simpl; [|lra].
    specialize (IH (helpall_body orow pal s) Htmp).
    unfold helpall_body in *.
    destruct (Qle_bool (u_qty pal) (h_need s)) eqn:Hfit; simpl in IH; lra.
Qed.

(** What the loop appends to the result list and leaves in the queue, and
    how the need evolves. *)
Lemma helpall_loop_spec orow tmp : forall s,
  exists d kept,
    h_allocated_rows (helpall_loop orow tmp s) = h_allocated_rows s ++ d
    /\ h_new_pq (helpall_loop orow tmp s) = h_new_pq s ++ kept
    /\ Qsum (map sub_qty d) + h_need (helpall_loop orow tmp s) == h_need s
    /\ Forall (helpall_line orow tmp) d
    /\ h_any_helpall (helpall_loop orow tmp s) = h_any_helpall s || nonempty d
    /\ subseq kept tmp
    /\ Permutation (map unit_key tmp) (map line_key d ++ map unit_key kept)
    /\ (Forall (fun u => 0 < u_qty u) tmp ->
        0 < h_need (helpall_loop orow tmp s) ->
        Forall (fun u => h_need (helpall_loop orow tmp s) < u_qty u) kept).
Proof.
  induction tmp as [|pal tmp IH]; intros s; simpl.
  - exists [], []. rewrite !app_nil_r, orb_false_r. simpl.
    repeat split; auto; try lra. apply subseq_nil.
  - destruct (Qltb 0 (h_need s)) eqn:Hneed.
    + destruct (IH (helpall_body orow pal s))
        as (d & kept & Hrows & Hq & Hsum & Hall & Hany & Hsub & Hperm & Hbig).
      pose proof (helpall_loop_need_le orow tmp (helpall_body orow pal s)) as Hle.
      unfold helpall_body in *.
      destruct (Qle_bool (u_qty pal) (h_need s)) eqn:Hfit; simpl in *.
      * exists ({| sub_orow := orow; sub_qty := u_qty pal; sub_zon := "H";
                   sub_kalltyp := "HELPALL"; sub_kalla := u_source_id pal;
                   sub_kallplats := u_loc pal |} :: d), kept.
        rewrite Hrows, <- app_assoc. simpl.
        split; [reflexivity|]. split; [assumption|]. split; [lra|].
        split; [|split; [|split; [|split]]].
        -- constructor.
           ++ repeat split; simpl; auto. exists pal. simpl. auto.
           ++ eapply Forall_impl; [|exact Hall].
              intros r. apply helpall_line_incl. intros x; simpl; auto.
        -- rewrite Hany. simpl. now rewrite orb_true_r.
        -- apply subseq_skip; assumption.
        -- apply perm_skip. exact Hperm.
        -- intros Hpos. inversion Hpos; subst. auto.
      * exists d, (pal :: kept).
        rewrite Hq, <- app_assoc. simpl.
        split; [assumption|]. split; [reflexivity|]. split; [assumption|].
        split; [|split; [|split; [|split]]]; auto.
        -- eapply Forall_impl; [|exact Hall].
           intros r. apply helpall_line_incl. intros x; simpl; auto.
        -- apply subseq_keep; assumption.
        -- apply Permutation_cons_app. exact Hperm.
        -- apply Qle_bool_false in Hfit.
           intros Hpos Hleft. inversion Hpos as [|? ? Hpal Htmp]; subst.
           constructor; auto. specialize (Hle Htmp). lra.
    + exists [], (pal :: tmp). simpl. rewrite app_nil_r, orb_false_r.
      repeat split; auto; try lra.
      * apply subseq_refl.
      * apply Qltb_false in Hneed. intros _ Hleft. lra.
Qed.

(** The near-miss records the loop appends. *)
Lemma helpall_loop_near orow tmp : forall s,
  exists dn,
    h_near_miss_rows (helpall_loop orow tmp s) = h_near_miss_rows s ++ dn
    /\ Forall (near_miss_of orow tmp) dn.
Proof.
  induction tmp as [|pal tmp IH]; intros s; simpl.
  - exists []. rewrite app_nil_r. auto.
  - assert (Hincl : forall r, near_miss_of orow tmp r -> near_miss_of orow (pal :: tmp) r).
    { intros r (H1 & H2 & H3 & H4 & H5 & H6 & H7 & H8 & p & Hin & Hp).
      repeat split; auto; try apply H6. exists p. simpl. auto. }
    destruct (Qltb 0 (h_need s)) eqn:Hneed.
    + destruct (IH (helpall_body orow pal s)) as (dn & Hn & Hall).
      apply Qltb_true in Hneed.
      unfold helpall_body, record_near_miss in *.
      destruct (Qle_bool (u_qty pal) (h_need s)) eqn:Hfit; simpl in *.
      * exists dn. split; auto. eapply Forall_impl; [exact Hincl|exact Hall].
      * apply Qle_bool_false in Hfit.
        destruct (Qle_bool (h_need s) 0) eqn:H0;
          [apply Qle_bool_iff in H0; lra|].
        destruct (Qle_bool (u_qty pal - h_need s) 0) eqn:Hd;
          [apply Qle_bool_iff in Hd; lra|].
        destruct (Qle_bool ((u_qty pal - h_need s) / h_need s) NEAR_MISS_PCT) eqn:Hpct.
        -- apply Qle_bool_iff in Hpct.
           eexists (_ :: dn). rewrite Hn, <- app_assoc. simpl. split; [reflexivity|].
           constructor.
           ++ repeat split; simpl; auto. exists pal. simpl. auto.
           ++ eapply Forall_impl; [exact Hincl|exact Hall].
        -- exists dn. split; auto. eapply Forall_impl; [exact Hincl|exact Hall].
    + exists []. simpl. rewrite app_nil_r. auto.
Qed.

End HelpallFacts.

(** ** The AUTOSTORE loop *)

Section AutostoreFacts.
Context {py : PyStr}.

Lemma autostore_loop_rows orow bq : forall s,
  exists d,
    a_allocated_rows (autostore_loop orow bq s) = a_allocated_rows s ++ d
    /\ Qsum (map sub_qty d) + a_need (autostore_loop orow bq s) == a_need s
    /\ Forall (autostore_line orow) d
    /\ a_any_autostore (autostore_loop orow bq s)
       = a_any_autostore s || nonempty d.
Proof.
  induction bq as [|binr bq IH]; intros s; simpl.
  - exists []. rewrite app_nil_r, orb_false_r. simpl. repeat split; auto. lra.
  - destruct (Qltb 0 (a_need s)) eqn:Hneed.
    + destruct (IH (autostore_body orow binr s)) as (d & Hrows & Hsum & Hall & Hany).
      unfold autostore_body in *.
      destruct (Qltb 0 (py_min (u_qty binr) (a_need s))) eqn:Htake; simpl in *.
      * apply Qltb_true in Htake.
        exists ({| sub_orow := orow; sub_qty := py_min (u_qty binr) (a_need s);
                   sub_zon := "R"; sub_kalltyp := "AUTOSTORE";
                   sub_kalla := u_source_id binr; sub_kallplats := u_loc binr |} :: d).
        rewrite Hrows, <- app_assoc. simpl.
        split; [reflexivity|]. split; [lra|]. split.
        -- constructor; auto. repeat split; auto.
        -- rewrite Hany. simpl. now rewrite orb_true_r.
      * exists d. repeat split; auto.
    + exists []. simpl. rewrite app_nil_r, orb_false_r. repeat split; auto. lra.
Qed.

Lemma autostore_body_need orow binr s :
  0 <= a_need s ->
  0 <= a_need (autostore_body orow binr s) <= a_need s.
Proof.
  intros Hs. unfold autostore_body.
  destruct (py_min_cases (u_qty binr) (a_need s)) as [[Hlt Hmin]|[Hle Hmin]];
    rewrite Hmin;
    match goal with |- context [Qltb 0 ?t] =>
      destruct (Qltb 0 t) eqn:Htake;
      [apply Qltb_true in Htake | apply Qltb_false in Htake] end;
    simpl; lra.
Qed.

(** The need never grows and stays non-negative. *)
Lemma autostore_loop_need orow bq : forall s,
  0 <= a_need s ->
  0 <= a_need (autostore_loop orow bq s) <= a_need s.
Proof.
  induction bq as [|binr bq IH]; intros s Hs; simpl.
  - lra.
  - destruct (Qltb 0 (a_need s)) eqn:Hneed; simpl; [|lra].
    pose proof (autostore_body_need orow binr s Hs) as Hb.
    specialize (IH (autostore_body orow binr s) (proj1 Hb)). lra.
Qed.

End AutostoreFacts.

(** ** One order line *)

Section LineFacts.
Context {py : PyStr}.

(** The lines of an order line: HELPALL lines, then AUTOSTORE lines, then at
    most one HUVUDPLOCK line, with quantities summing to the need; the
    pallets of the article are split between the HELPALL lines and the
    queue left for later lines. *)
Lemma process_line_split (st : Store) (orow : OrderRow) :
  0 < o_qty orow ->
  let queue := pallet_queues st (strip (o_artikel orow)) in
  let h := run_helpall st orow in
  exists dh da dm,
    emitted_for st orow = dh ++ da ++ dm
    /\ allocated_rows (process_line st orow) = allocated_rows st ++ dh ++ da ++ dm
    /\ Forall (helpall_line orow queue) dh
    /\ Forall (autostore_line orow) da
    /\ Forall (mainpick_line orow) dm
    /\ Qsum (map sub_qty (dh ++ da ++ dm)) == o_qty orow
    /\ h_any_helpall h = nonempty dh
    /\ a_any_autostore (run_autostore st orow) = nonempty da
    /\ any_mainpick st orow = nonempty dm
    /\ subseq (h_new_pq h) queue
    /\ Permutation (map unit_key queue) (map line_key dh ++ map unit_key (h_new_pq h))
    /\ (Forall (fun u => 0 < u_qty u) queue -> 0 < h_need h ->
        Forall (fun u => h_need h < u_qty u) (h_new_pq h)).
Proof.
  intros Hneed. cbv zeta.
  assert (Hgo : Qle_bool (o_qty orow) 0 = false) by (apply Qle_bool_false; exact Hneed).
  unfold emitted_for, process_line. rewrite Hgo.
  unfold any_mainpick, run_autostore.
  set (h := run_helpall st orow).
  destruct (helpall_loop_spec orow (pallet_queues st (strip (o_artikel orow)))
              {| h_need := o_qty orow; h_any_helpall := false; h_new_pq := [];
                 h_allocated_rows := allocated_rows st;
                 h_near_miss_rows := near_miss_rows st |})
    as (dh & kept & Hh & Hkept & Hhsum & Hhall & Hhany & Hsub & Hperm & Hbig).
  fold (run_helpall st orow) in Hh, Hkept, Hhsum, Hhany, Hbig.
  fold h in Hh, Hkept, Hhsum, Hhany, Hbig.
  simpl in Hh, Hkept, Hhsum, Hhany. subst kept.
  destruct (autostore_loop_rows orow (bin_queues st (strip (o_artikel orow)))
              {| a_need := h_need h; a_any_autostore := false; a_new_bq := [];
                 a_allocated_rows := h_allocated_rows h |})
    as (da & Ha & Hasum & Haall & Haany).
  set (a := autostore_loop orow (bin_queues st (strip (o_artikel orow))) _) in *.
  simpl in Ha, Hasum, Haany.
  destruct (Qltb 0 (a_need a)) eqn:Hmain; simpl.
  - apply Qltb_true in Hmain.
    exists dh, da,
      [ {| sub_orow := orow; sub_qty := a_need a; sub_zon := "A";
           sub_kalltyp := "HUVUDPLOCK"; sub_kalla := ""; sub_kallplats := "" |} ].
    rewrite Ha, Hh, <- !app_assoc, skipn_length_app.
    repeat split; auto.
    + constructor; auto. repeat split; auto.
    + rewrite !map_app, !Qsum_app. simpl. lra.
  - apply Qltb_false in Hmain.
    exists dh, da, [].
    rewrite Ha, Hh, <- !app_assoc, skipn_length_app, app_nil_r.
    repeat split; auto.
    rewrite !map_app, !Qsum_app.
    assert (0 <= h_need h).
    { apply helpall_loop_nonneg. simpl. lra. }
    assert (0 <= a_need a <= h_need h).
    { apply (autostore_loop_need orow _
               {| a_need := h_need h; a_any_autostore := false; a_new_bq := [];
                  a_allocated_rows := h_allocated_rows h |}).
      assumption. }
    lra.
Qed.

(** The near-miss records of the HELPALL stage of a line. *)
Lemma run_helpall_near (st : Store) (orow : OrderRow) :
  h_near_miss_rows (run_helpall st orow)
  = near_miss_rows st ++ near_misses_for st orow
  /\ Forall (near_miss_of orow (pallet_queues st (strip (o_artikel orow))))
            (near_misses_for st orow).
Proof.
  unfold near_misses_for, run_helpall.
  destruct (helpall_loop_near orow (pallet_queues st (strip (o_artikel orow)))
              {| h_need := o_qty orow; h_any_helpall := false; h_new_pq := [];
                 h_allocated_rows := allocated_rows st;
                 h_near_miss_rows := near_miss_rows st |})
    as (dn & Hn & Hall).
  simpl in Hn. rewrite Hn, skipn_length_app. auto.
Qed.

End LineFacts.

(** ** The promotion pass keeps the lines and their quantities *)

Section PromoteFacts.
Context {py : PyStr}.

Lemma promote_row_fields art_of auto_arts r :
  sub_orow (promote_row art_of auto_arts r) = sub_orow r
  /\ sub_qty (promote_row art_of auto_arts r) = sub_qty r
  /\ sub_kalla (promote_row art_of auto_arts r) = sub_kalla r
  /\ sub_kallplats (promote_row art_of auto_arts r) = sub_kallplats r.
Proof.
  unfold promote_row.
  destruct (str_in (art_of r) auto_arts && negb (String.eqb (sub_kalltyp r) "HELPALL"));
    simpl; auto.
Qed.

(** The pass is a row-wise rewrite. *)
Lemma promote_is_map order_qty_col rows :
  exists art_of auto_arts,
    promote order_qty_col rows = map (promote_row art_of auto_arts) rows.
Proof.
  unfold promote. destruct rows as [|r0 rows'].
  - exists (fun _ => ""), []. reflexivity.
  - set (rows := r0 :: rows').
    destruct (truthy _).
    + match goal with |- context [map ?f (filter ?g rows)] =>
        destruct (map f (filter g rows)) as [|a0 autos] eqn:Hautos end.
      * exists (fun _ => ""), []. unfold promote_row. simpl.
        rewrite map_id. reflexivity.
      * eexists _, _. reflexivity.
    + exists (fun _ => ""), []. unfold promote_row. simpl.
      rewrite map_id. reflexivity.
Qed.

Lemma promote_quantities order_qty_col rows :
  map sub_qty (promote order_qty_col rows) = map sub_qty rows
  /\ map sub_orow (promote order_qty_col rows) = map sub_orow rows.
Proof.
  destruct (promote_is_map order_qty_col rows) as (art_of & autos & ->).
  rewrite !map_map. split; apply map_ext; intros r; apply promote_row_fields.
Qed.

End PromoteFacts.

(** ** Sum of the allocated quantities of a line *)




(** ** Sorting and the queues *)

Lemma insert_by_perm {A} (leb : A -> A -> bool) x l :
  Permutation (insert_by leb x l) (x :: l).
Proof.
  induction l as [|y l IH]; simpl; auto.
  destruct (leb x y); auto.
  rewrite IH. apply perm_swap.
Qed.

Lemma sort_values_perm {A} (leb : A -> A -> bool) l :
  Permutation (sort_values leb l) l.
Proof.
  induction l as [|x l IH]; simpl; auto.
  rewrite insert_by_perm. auto.
Qed.

Lemma sort_values_in {A} (leb : A -> A -> bool) l x :
  In x (sort_values leb l) <-> In x l.
Proof.
  split; apply Permutation_in; [|symmetry]; apply sort_values_perm.
Qed.

Lemma sort_values_Forall {A} (leb : A -> A -> bool) (P : A -> Prop) l :
  Forall P l -> Forall P (sort_values leb l).
Proof.
  rewrite !Forall_forall. intros H x Hx. apply H. apply sort_values_in in Hx. exact Hx.
Qed.

Lemma filter_Forall {A} (f : A -> bool) l : Forall (fun x => f x = true) (filter f l).
Proof.
  apply Forall_forall. intros x Hx. apply filter_In in Hx. tauto.
Qed.

Lemma filter_keeps_Forall {A} (f : A -> bool) (P : A -> Prop) l :
  Forall P l -> Forall P (filter f l).
Proof.
  rewrite !Forall_forall. intros H x Hx. apply filter_In in Hx. apply H; tauto.
Qed.

Section QueueFacts.
Context {py : PyStr}.

Lemma set_queue_Forall (P : Unit -> Prop) queues art q :
  (forall k, Forall P (queues k)) -> Forall P q ->
  forall k, Forall P (set_queue queues art q k).
Proof.
  intros Hq Hnew k. unfold set_queue. destruct (String.eqb k art); auto.
Qed.

Lemma build_queues_Forall (P : Unit -> Prop) rows :
  Forall (fun r => P (unit_of_row r)) rows ->
  forall art, Forall P (build_queues rows art).
Proof.
  unfold build_queues.
  assert (G : forall q0, (forall k, Forall P (q0 k)) ->
            Forall (fun r => P (unit_of_row r)) rows ->
            forall art,
              Forall P (fold_left
                (fun queues r =>
                   set_queue queues (strip (b_artikel r))
                     (queues (strip (b_artikel r)) ++ [unit_of_row r]))
                rows q0 art)).
  { induction rows as [|r rows IH]; intros q0 Hq0 Hrows art; simpl; auto.
    inversion Hrows; subst. apply IH; auto.
    apply set_queue_Forall; auto.
    apply Forall_app. split; auto. }
  intros Hrows art. apply G; auto.
Qed.

(** The queues built from the filtered buffer hold positive quantities. *)
Lemma initial_store_positive buffer_columns buff_status_col buffer_raw :
  positive_store
    (initial_store (filtered_buffer buffer_columns buff_status_col buffer_raw)).
Proof.
  assert (Hpos : Forall (fun r => 0 < u_qty (unit_of_row r))
                   (filtered_buffer buffer_columns buff_status_col buffer_raw)).
  { unfold filtered_buffer.
    eapply Forall_impl; [|apply filter_Forall].
    intros r Hr. apply Qltb_true in Hr. exact Hr. }
  unfold initial_store. repeat split; simpl; auto; intros art;
    apply build_queues_Forall, sort_values_Forall, filter_keeps_Forall, Hpos.
Qed.

(** What the AUTOSTORE loop leaves in the queue is positive. *)
Lemma autostore_loop_queue orow bq : forall s,
  Forall (fun u => 0 < u_qty u) bq ->
  Forall (fun u => 0 < u_qty u) (a_new_bq s) ->
  Forall (fun u => 0 < u_qty u) (a_new_bq (autostore_loop orow bq s)).
Proof.
  induction bq as [|binr bq IH]; intros s Hbq Hs; simpl; auto.
  inversion Hbq; subst.
  destruct (Qltb 0 (a_need s)) eqn:Hneed; simpl.
  - apply IH; auto. unfold autostore_body. simpl.
    match goal with |- context [if Qltb 0 (u_qty ?b) then _ else _] =>
      destruct (Qltb 0 (u_qty b)) eqn:Hres end; auto.
    apply Forall_app. split; auto. constructor; auto.
    apply Qltb_true in Hres. exact Hres.
  - apply Forall_app. split; auto.
Qed.

(** Processing a line keeps the store positive. *)
Lemma process_line_positive st orow :
  positive_store st -> positive_store (process_line st orow).
Proof.
  intros (Hp & Hb & Hr).
  destruct (Qlt_le_dec 0 (o_qty orow)) as [Hneed|Hskip].
  - destruct (process_line_split st orow Hneed)
      as (dh & da & dm & _ & Hrows & Hh & Ha & Hm & _ & _ & _ & _ & Hsub & _).
    unfold positive_store. rewrite Hrows.
    assert (Hgo : Qle_bool (o_qty orow) 0 = false) by (apply Qle_bool_false; exact Hneed).
    unfold process_line. rewrite Hgo. simpl. repeat split.
    + apply set_queue_Forall; auto.
      eapply subseq_Forall; eauto.
    + apply set_queue_Forall; auto.
      apply autostore_loop_queue; simpl; auto.
    + rewrite !Forall_app. repeat split; auto.
      * eapply Forall_impl; [|exact Hh].
        intros r (_ & _ & _ & pal & Hin & Hq & _). rewrite Hq.
        specialize (Hp (strip (o_artikel orow))).
        rewrite Forall_forall in Hp. auto.
      * eapply Forall_impl; [|exact Ha]. intros r (_ & _ & _ & Hq). exact Hq.
      * eapply Forall_impl; [|exact Hm]. intros r (_ & _ & _ & _ & _ & Hq). exact Hq.
  - apply Qle_bool_iff in Hskip. unfold process_line. rewrite Hskip.
    repeat split; auto.
Qed.

Lemma allocation_loop_positive orders : forall st,
  positive_store st -> positive_store (allocation_loop orders st).
Proof.
  unfold allocation_loop.
  induction orders as [|o orders IH]; intros st Hst; simpl; auto.
  apply IH, process_line_positive, Hst.
Qed.

End QueueFacts.

(** Inversion of a successful sequence of [find_col]. *)
Lemma bind_Ok {A B} (r : result A) (k : A -> result B) (b : B) :
  bind r k = Ok b -> exists a, r = Ok a /\ k a = Ok b.
Proof.
  destruct r; simpl; intros H; [eauto | discriminate].
Qed.

(** The stores and the columns behind a successful run of [allocate]. *)
Lemma allocate_Ok {py : PyStr} orders_raw buffer_raw allocated near :
  allocate orders_raw buffer_raw = Ok (allocated, near) ->
  exists order_qty_col order_status_col buff_status_col,
    find_col (df_columns orders_raw) Schemas.ORDER_qty true None = Ok order_qty_col
    /\ let st :=
         allocation_loop
           (drop_status_35 (df_columns orders_raw) order_status_col (df_rows orders_raw))
           (initial_store
              (filtered_buffer (df_columns buffer_raw) buff_status_col
                 (df_rows buffer_raw))) in
       allocated = {| df_columns := ordered_cols (df_columns orders_raw);
                      df_rows := promote (col_name order_qty_col) (allocated_rows st) |}
       /\ near = near_miss_frame (near_miss_rows st).
Proof.
  unfold allocate. intros H.
  repeat (apply bind_Ok in H; destruct H as (? & ? & H)).
  inversion H; subst. do 3 eexists.
  split; [eassumption|]. split; reflexivity.
Qed.

(** ** Positive quantities *)

(** C10.  Every allocated line returned by [allocate] has a strictly
    positive quantity: the buffer is filtered to positive quantities, a bin
    is consumed only for a positive amount and the main-pick line is
    emitted only for a positive need. *)
Theorem allocated_quantities_positive {py : PyStr}
    (orders_raw : DataFrame OrderRow) (buffer_raw : DataFrame BufferRow)
    (allocated : DataFrame AllocatedLine) (near : DataFrame NearMissRecord) :
  allocate orders_raw buffer_raw = Ok (allocated, near) ->
  Forall (fun r => 0 < sub_qty r) (df_rows allocated).
Proof.
  intros H. apply allocate_Ok in H.
  destruct H as (qc & sc & bc & _ & Ha & _). subst allocated. simpl.
  match goal with |- Forall _ (promote _ (allocated_rows ?st)) =>
    assert (Hst : positive_store st)
      by (apply allocation_loop_positive, initial_store_positive);
    destruct Hst as (_ & _ & Hrows);
    pose proof (proj1 (promote_quantities (col_name qc) (allocated_rows st))) as Hq
  end.
  apply Forall_forall. intros r Hr.
  apply (in_map sub_qty) in Hr. rewrite Hq in Hr.
  apply in_map_iff in Hr. destruct Hr as (r0 & <- & Hr0).
  rewrite Forall_forall in Hrows. auto.
Qed.

(** ** The HELPALL scan *)

Lemma set_queue_same queues art q : set_queue queues art q art = q.
Proof. unfold set_queue. now rewrite String.eqb_refl. Qed.

Lemma set_queue_other queues art q k : k <> art -> set_queue queues art q k = queues k.
Proof.
  intros H. unfold set_queue. destruct (String.eqb k art) eqn:E; auto.
  apply String.eqb_eq in E. contradiction.
Qed.

Lemma existsb_kalltyp (t t' : string) (d : list AllocatedLine) :
  Forall (fun r => sub_kalltyp r = t) d ->
  existsb (fun r => String.eqb (sub_kalltyp r) t') d = String.eqb t t' && nonempty d.
Proof.
  induction 1 as [|r d Hr Hd IH]; simpl.
  - now rewrite andb_false_r.
  - rewrite IH, Hr. unfold nonempty. simpl.
    destruct (String.eqb t t'); simpl; auto.
Qed.

Lemma filter_kalltyp (t t' : string) (d : list AllocatedLine) :
  Forall (fun r => sub_kalltyp r = t) d ->
  filter (fun r => String.eqb (sub_kalltyp r) t') d = if String.eqb t t' then d else [].
Proof.
  induction 1 as [|r d Hr Hd IH]; simpl.
  - now destruct (String.eqb t t').
  - rewrite IH, Hr. now destruct (String.eqb t t').
Qed.

Section LineTypes.
Context {py : PyStr}.

Lemma helpall_line_type orow q d :
  Forall (helpall_line orow q) d -> Forall (fun r => sub_kalltyp r = "HELPALL") d.
Proof. apply Forall_impl. intros r H. apply H. Qed.

Lemma autostore_line_type orow d :
  Forall (autostore_line orow) d -> Forall (fun r => sub_kalltyp r = "AUTOSTORE") d.
Proof. apply Forall_impl. intros r H. apply H. Qed.

Lemma mainpick_line_type orow d :
  Forall (mainpick_line orow) d -> Forall (fun r => sub_kalltyp r = "HUVUDPLOCK") d.
Proof. apply Forall_impl. intros r H. apply H. Qed.

End LineTypes.

(** C2, as the code has it.  A pallet larger than the remaining need does
    not end the HELPALL scan: it stays in the queue and the pallets after it
    are still examined.  The queue left for later lines is the queue of the
    article with the consumed pallets removed, in the same order; the
    pallets consumed are those of the HELPALL lines of the line; when some
    need is left after the stage, every pallet left is larger than it; the
    queues of the other articles are untouched. *)
Theorem helpall_scan_is_exhaustive {py : PyStr} (st : Store) (orow : OrderRow) :
  0 < o_qty orow ->
  Forall (fun u => 0 < u_qty u) (pallet_queues st (strip (o_artikel orow))) ->
  let art := strip (o_artikel orow) in
  let queue := pallet_queues st art in
  let left := pallet_queues (process_line st orow) art in
  let need_left := h_need (run_helpall st orow) in
  subseq left queue
  /\ Permutation (map unit_key queue)
       (map line_key
          (filter (fun r => String.eqb (sub_kalltyp r) "HELPALL") (emitted_for st orow))
        ++ map unit_key left)
  /\ (0 < need_left -> Forall (fun u => need_left < u_qty u) left)
  /\ (forall other, other <> art ->
        pallet_queues (process_line st orow) other = pallet_queues st other).
Proof.
  intros Hneed Hpos. cbv zeta.
  destruct (process_line_split st orow Hneed)
    as (dh & da & dm & Hem & _ & Hh & Ha & Hm & _ & _ & _ & _ & Hsub & Hperm & Hbig).
  cbv zeta in Hsub, Hperm, Hbig.
  assert (Hgo : Qle_bool (o_qty orow) 0 = false) by (apply Qle_bool_false; exact Hneed).
  assert (Hleft : pallet_queues (process_line st orow) (strip (o_artikel orow))
                  = h_new_pq (run_helpall st orow)).
  { unfold process_line. rewrite Hgo. simpl. apply set_queue_same. }
  rewrite Hleft, Hem, !filter_app.
  rewrite (filter_kalltyp "HELPALL" "HELPALL" dh (helpall_line_type _ _ _ Hh)).
  rewrite (filter_kalltyp "AUTOSTORE" "HELPALL" da (autostore_line_type _ _ Ha)).
  rewrite (filter_kalltyp "HUVUDPLOCK" "HELPALL" dm (mainpick_line_type _ _ Hm)).
  simpl. rewrite app_nil_r.
  repeat split; auto.
  intros other Hother. unfold process_line. rewrite Hgo. simpl.
  apply set_queue_other, Hother.
Qed.

Lemma helpall_scan_is_exhaustive_witness :
  let st := Ex.store [Ex.unit "P1" 11 "B1"; Ex.unit "P2" 4 "B2"] [] in
  0 < o_qty (Ex.line "1" 10)
  /\ Forall (fun u => 0 < u_qty u) (pallet_queues st "X")
  /\ subseq (pallet_queues (@process_line ascii_py st (Ex.line "1" 10)) "X")
            (pallet_queues st "X").
Proof.
  cbv zeta. split; [reflexivity|]. split.
  - repeat constructor.
  - apply (@helpall_scan_is_exhaustive ascii_py
             (Ex.store [Ex.unit "P1" 11 "B1"; Ex.unit "P2" 4 "B2"] [])
             (Ex.line "1" 10)).
    + reflexivity.
    + repeat constructor.
Defined.

(** C2 fails as stated: with need 10 and the pallets 11 and 4 queued in
    that order, the first pallet is too large, yet the scan goes on and the
    second pallet is consumed as a HELPALL line; the queue left holds the
    first pallet only, not both. *)
Lemma helpall_scan_does_not_stop_at_misfit :
  let p1 := Ex.unit "P1" 11 "B1" in
  let p2 := Ex.unit "P2" 4 "B2" in
  let st' := @process_line ascii_py (Ex.store [p1; p2] []) (Ex.line "1" 10) in
  pallet_queues st' "X" = [p1]
  /\ pallet_queues st' "X" <> [p1; p2]
  /\ map (fun r => (sub_kalltyp r, sub_kalla r, sub_qty r)) (allocated_rows st')
     = [("HELPALL", "P2", 4); ("HUVUDPLOCK", "", 10 - 4)].
Proof.
  cbv zeta. repeat split; try reflexivity. discriminate.
Qed.

(** ** Near-miss records *)




Lemma allocated_quantities_positive_witness :
  exists allocated near,
    @allocate ascii_py
      (Ex.orders [("1", 20); ("2", 3)])
      (Ex.buffer [("P1", 5, "B1"); ("P2", 17, "B2"); ("K1", 4, "AUTOSTORE-1")])
    = Ok (allocated, near)
    /\ Forall (fun r => 0 < sub_qty r) (df_rows allocated).
Proof.
  eexists. eexists. split.
  - vm_compute. reflexivity.
  - eapply (@allocated_quantities_positive ascii_py
              (Ex.orders [("1", 20); ("2", 3)])
              (Ex.buffer [("P1", 5, "B1"); ("P2", 17, "B2"); ("K1", 4, "AUTOSTORE-1")])).
    vm_compute. reflexivity.
Defined.

(** ** The flag of the near-miss records *)

Section FlagFacts.
Context {py : PyStr}.

(** The three flags of a line, read from the lines it got. *)
Lemma line_used_flags (st : Store) (orow : OrderRow) :
  0 < o_qty orow ->
  h_any_helpall (run_helpall st orow) = line_used st orow "HELPALL"
  /\ a_any_autostore (run_autostore st orow) = line_used st orow "AUTOSTORE"
  /\ any_mainpick st orow = line_used st orow "HUVUDPLOCK".
Proof.
  intros Hneed.
  destruct (process_line_split st orow Hneed)
    as (dh & da & dm & Hem & _ & Hh & Ha & Hm & _ & Hfh & Hfa & Hfm & _).
  cbv zeta in Hfh. unfold line_used. rewrite Hem, Hfh, Hfa, Hfm.
  rewrite !existsb_app.
  rewrite !(existsb_kalltyp "HELPALL" _ dh (helpall_line_type _ _ _ Hh)).
  rewrite !(existsb_kalltyp "AUTOSTORE" _ da (autostore_line_type _ _ Ha)).
  rewrite !(existsb_kalltyp "HUVUDPLOCK" _ dm (mainpick_line_type _ _ Hm)).
  simpl. repeat split.
  - now rewrite !orb_false_r.
  - now rewrite orb_false_r.
Qed.

Lemma mark_near_miss_flag orow flag rows r :
  In r (mark_near_miss orow flag rows) ->
  nm_OrderID r = o_order_id orow -> nm_OrderRad r = o_order_line orow ->
  nm_Galler r = Some flag.
Proof.
  unfold mark_near_miss. intros Hin Hid Hrad.
  apply in_map_iff in Hin. destruct Hin as (r0 & Hr & _).
  destruct (String.eqb (nm_OrderID r0) (o_order_id orow)
            && String.eqb (nm_OrderRad r0) (o_order_line orow)) eqn:E.
  - subst r. reflexivity.
  - subst r. rewrite Hid, Hrad, !String.eqb_refl in E. discriminate.
Qed.

End FlagFacts.

(** C4, as the code has it.  After a line with need > 0 is processed,
    every near-miss record with the line's order id and line id carries the
    flag, and the flag is true exactly when the line got no HELPALL line
    and got an AUTOSTORE or a HUVUDPLOCK line. *)
Theorem near_miss_flag_after_line {py : PyStr} (st : Store) (orow : OrderRow)
    (r : NearMissRecord) :
  0 < o_qty orow ->
  In r (near_miss_rows (process_line st orow)) ->
  nm_OrderID r = o_order_id orow ->
  nm_OrderRad r = o_order_line orow ->
  nm_Galler r
  = Some (negb (line_used st orow "HELPALL")
          && (line_used st orow "AUTOSTORE" || line_used st orow "HUVUDPLOCK")).
Proof.
  intros Hneed Hin Hid Hrad.
  destruct (line_used_flags st orow Hneed) as (<- & <- & <-).
  assert (Hgo : Qle_bool (o_qty orow) 0 = false) by (apply Qle_bool_false; exact Hneed).
  unfold process_line in Hin. rewrite Hgo in Hin. simpl in Hin.
  eapply mark_near_miss_flag in Hin; eauto.
Qed.

Lemma near_miss_flag_after_line_witness :
  let st := Ex.store [Ex.unit "P1" 5 "B1"; Ex.unit "P2" 17 "B2"] [] in
  let orow := Ex.line "1" 20 in
  exists r,
    0 < o_qty orow
    /\ In r (near_miss_rows (@process_line ascii_py st orow))
    /\ nm_OrderID r = o_order_id orow
    /\ nm_OrderRad r = o_order_line orow
    /\ nm_Galler r
       = Some (negb (@line_used ascii_py st orow "HELPALL")
               && (@line_used ascii_py st orow "AUTOSTORE"
                   || @line_used ascii_py st orow "HUVUDPLOCK")).
Proof.
  cbv zeta. eexists.
  split; [reflexivity|].
  split; [vm_compute; left; reflexivity|].
  split; [reflexivity|]. split; [reflexivity|].
  apply (@near_miss_flag_after_line ascii_py
           (Ex.store [Ex.unit "P1" 5 "B1"; Ex.unit "P2" 17 "B2"] [])
           (Ex.line "1" 20)).
  - reflexivity.
  - vm_compute. left. reflexivity.
  - reflexivity.
  - reflexivity.
Defined.

(** C4 fails as stated: with need 20 and the pallets 5 and 17, the line
    takes the first pallet, records a near miss for the second (17 against
    the 15 still needed) and falls through to HUVUDPLOCK for 15; the record
    is flagged false although the line used HUVUDPLOCK. *)
Lemma near_miss_flag_false_despite_main_pick :
  let st := Ex.store [Ex.unit "P1" 5 "B1"; Ex.unit "P2" 17 "B2"] [] in
  let st' := @process_line ascii_py st (Ex.line "1" 20) in
  map (fun r => (nm_OrderID r, nm_OrderRad r, nm_PallID r, nm_Galler r))
      (near_miss_rows st')
  = [("O1", "1", "P2", Some false)]
  /\ @line_used ascii_py st (Ex.line "1" 20) "HUVUDPLOCK" = true.
Proof.
  cbv zeta. split; reflexivity.
Qed.

(** ** Dicts and table columns *)


Lemma dict_get_set {V} (c k : string) (v : V) (d : dict V) :
  dict_get c (dict_set k v d) = if String.eqb k c then Some v else dict_get c d.
Proof.
  induction d as [|[k' v'] d IH]; simpl.
  - reflexivity.
  - destruct (String.eqb k' k) eqn:Ek; simpl.
    + apply String.eqb_eq in Ek. subst k'.
      destruct (String.eqb k c); reflexivity.
    + rewrite IH. destruct (String.eqb k' c) eqn:Ec; auto.
      destruct (String.eqb k c) eqn:Ekc; auto.
      apply String.eqb_eq in Ec, Ekc. subst.
      rewrite String.eqb_refl in Ek. discriminate.
Qed.



Section ColumnFacts.
Context {py : PyStr}.

(** An entry of the lower-case index is a column with that lower-cased
    name. *)
Lemma lower_index_get columns k c :
  dict_get k (lower_index columns) = Some c -> lower c = k /\ In c columns.
Proof.
  unfold lower_index.
  assert (G : forall (seen : list string) d,
            (forall k c, dict_get k d = Some c -> lower c = k /\ In c seen) ->
            forall k c,
              dict_get k (fold_left (fun d c => dict_set (lower c) c d) columns d) = Some c ->
              lower c = k /\ In c (seen ++ columns)).
  { induction columns as [|x columns IH]; intros seen d Hd k0 c0 H; simpl in *.
    - rewrite app_nil_r. auto.
    - replace (seen ++ x :: columns) with ((seen ++ [x]) ++ columns)
        by (rewrite <- app_assoc; reflexivity).
      eapply IH; [|exact H].
      intros k1 c1 H1. rewrite dict_get_set in H1.
      destruct (String.eqb (lower x) k1) eqn:E.
      + apply String.eqb_eq in E. inversion H1; subst.
        split; auto. apply in_or_app. right. simpl. auto.
      + apply Hd in H1. destruct H1. split; auto. apply in_or_app. auto. }
  intros H. apply (G [] []) in H; auto. simpl. discriminate.
Qed.

(** Every column is found in the index under its lower-cased name. *)
Lemma lower_index_has columns c :
  In c columns -> dict_get (lower c) (lower_index columns) <> None.
Proof.
  unfold lower_index.
  assert (G : forall d,
            (In c columns \/ dict_get (lower c) d <> None) ->
            dict_get (lower c)
              (fold_left (fun d c => dict_set (lower c) c d) columns d) <> None).
  { induction columns as [|x columns IH]; intros d H; simpl.
    - destruct H as [[]|H]; exact H.
    - apply IH. rewrite dict_get_set.
      destruct H as [[->|H]|H]; auto.
      + right. rewrite String.eqb_refl. discriminate.
      + right. destruct (String.eqb (lower x) (lower c)); [discriminate | exact H]. }
  intros H. apply G. auto.
Qed.

Lemma first_some_found {A B} (f : A -> option B) (l : list A) (x : A) :
  In x l -> f x <> None -> first_some f l <> None.
Proof.
  induction l as [|y l IH]; simpl; [tauto|].
  intros [->|Hin] Hx.
  - destruct (f x); [discriminate | contradiction].
  - destruct (f y); [discriminate | auto].
Qed.

Lemma first_some_source {A B} (f : A -> option B) (l : list A) (b : B) :
  first_some f l = Some b -> exists x, In x l /\ f x = Some b.
Proof.
  induction l as [|y l IH]; simpl; [discriminate|].
  destruct (f y) eqn:E.
  - intros H. inversion H; subst. eauto.
  - intros H. destruct (IH H) as (x & Hx & Hf). eauto.
Qed.










End ColumnFacts.

(** ** The cross-line promotion pass *)




(** ** Column resolution *)

Lemma prefix_refl (s : string) : String.prefix s s = true.
Proof.
  induction s as [|a s IH]; simpl; auto.
  destruct (ascii_dec a a); [exact IH | contradiction].
Qed.

Lemma contains_refl (s : string) : contains s s = true.
Proof.
  destruct s; simpl; auto.
  destruct (ascii_dec a a); [|contradiction].
  now rewrite prefix_refl.
Qed.

Lemma dict_set_In {V} (k0 k : string) (v0 v : V) (d : dict V) :
  In (k0, v0) (dict_set k v d) -> (k0 = k /\ v0 = v) \/ In (k0, v0) d.
Proof.
  induction d as [|[k' v'] d IH]; simpl.
  - intros [H|[]]. inversion H. auto.
  - destruct (String.eqb k' k) eqn:E; simpl.
    + apply String.eqb_eq in E. subst k'.
      intros [H|H]; [inversion H; auto | auto].
    + intros [H|H]; auto. apply IH in H. tauto.
Qed.

Lemma dict_get_In {V} (k : string) (v : V) (d : dict V) :
  dict_get k d = Some v -> In (k, v) d.
Proof.
  induction d as [|[k' v'] d IH]; simpl; [discriminate|].
  destruct (String.eqb k' k) eqn:E.
  - apply String.eqb_eq in E. intros H. inversion H. subst. auto.
  - auto.
Qed.

Section FindColFacts.
Context {py : PyStr}.

Lemma lower_index_In columns k c :
  In (k, c) (lower_index columns) -> lower c = k /\ In c columns.
Proof.
  unfold lower_index.
  assert (G : forall (seen : list string) d,
            (forall k c, In (k, c) d -> lower c = k /\ In c seen) ->
            forall k c,
              In (k, c) (fold_left (fun d c => dict_set (lower c) c d) columns d) ->
              lower c = k /\ In c (seen ++ columns)).
  { induction columns as [|x columns IH]; intros seen d Hd k0 c0 H; simpl in *.
    - rewrite app_nil_r. auto.
    - replace (seen ++ x :: columns) with ((seen ++ [x]) ++ columns)
        by (rewrite <- app_assoc; reflexivity).
      eapply IH; [|exact H].
      intros k1 c1 H1. apply dict_set_In in H1.
      destruct H1 as [[-> ->]|H1].
      + split; auto. apply in_or_app. right. simpl. auto.
      + apply Hd in H1. destruct H1. split; auto. apply in_or_app. auto. }
  intros H. apply (G [] []) in H; auto. simpl. tauto.
Qed.


(** A required field resolves to a column of the table when it can be
    resolved, and raises the [KeyError] otherwise. *)
Lemma find_col_required columns candidates :
  (resolvable columns candidates
   /\ exists c, find_col columns candidates true None = Ok (Some c) /\ In c columns)
  \/ (~ resolvable columns candidates
      /\ find_col columns candidates true None
         = Raise (KeyError (find_col_message columns candidates))).
Proof.
  unfold find_col.
  destruct (first_some (fun cand => dict_get (lower cand) (lower_index columns))
              candidates) as [c|] eqn:Hexact.
  - left. apply first_some_source in Hexact. destruct Hexact as (cand & Hcand & Hget).
    apply lower_index_get in Hget. destruct Hget as [Hlow Hin].
    split; [|eauto].
    exists c, cand. repeat split; auto. rewrite Hlow. apply contains_refl.
  - destruct (first_some _ (lower_index columns)) as [c|] eqn:Hsub.
    + left. apply first_some_source in Hsub. destruct Hsub as ([k orig] & Hin & Hf).
      simpl in Hf.
      destruct (existsb (fun cand => contains (lower cand) k) candidates) eqn:Hex;
        [|discriminate].
      inversion Hf; subst orig.
      apply lower_index_In in Hin. destruct Hin as [Hlow Hin].
      apply existsb_exists in Hex. destruct Hex as (cand & Hcand & Hcont).
      split; [|eauto].
      exists c, cand. repeat split; auto. now rewrite Hlow.
    + right. split; [|reflexivity].
      intros (c & cand & Hc & Hcand & Hcont).
      pose proof (lower_index_has columns c Hc) as Hkey.
      destruct (dict_get (lower c) (lower_index columns)) as [orig|] eqn:Hget;
        [|contradiction].
      apply dict_get_In in Hget.
      revert Hsub. apply (first_some_found _ _ (lower c, orig)); auto.
      simpl.
      assert (Hex : existsb (fun cand => contains (lower cand) (lower c)) candidates = true).
      { apply existsb_exists. eauto. }
      rewrite Hex. discriminate.
Qed.

End FindColFacts.




(** ** Empty result tables *)

Lemma frame_of_rows {R} (columns : list string) (rows : list R) :
  df_rows (frame_of columns rows) = rows
  /\ (rows = [] -> df_columns (frame_of columns rows) = [])
  /\ (rows <> [] -> df_columns (frame_of columns rows) = columns).
Proof.
  destruct rows; simpl; repeat split; auto; congruence.
Qed.

(** The tables behind a successful run of [calculate_refill]. *)
Lemma calculate_refill_Ok {py : PyStr} allocated_df buffer_raw s_norm npu hp asr :
  calculate_refill allocated_df buffer_raw s_norm npu = Ok (hp, asr) ->
  let b := refill_buffer buffer_raw in
  let used := used_help_ids allocated_df in
  let saldo_sum := fst (saldo_tables s_norm) in
  let plockplats_by_art := snd (saldo_tables s_norm) in
  let npu_sum := npu_table npu in
  hp = frame_of REFILL_HP_COLUMNS
         (sort_values hp_leb
            (rows_hp b used saldo_sum plockplats_by_art npu_sum (df_rows allocated_df)))
  /\ asr = frame_of REFILL_AS_COLUMNS
             (sort_values as_leb
                (rows_as b used saldo_sum plockplats_by_art npu_sum (df_rows allocated_df))).
Proof.
  unfold calculate_refill, refill_buffer. intros H.
  repeat (apply bind_Ok in H; destruct H as (? & ? & H)).
  match goal with
  | Hs : find_col _ Schemas.BUFFER_status false None = Ok _ |- _ => rewrite Hs
  end.
  inversion H; subst. split; reflexivity.
Qed.

(** C8, as the code has it.  The allocated-lines table always carries the
    full column set, the order columns followed by the derived columns, also
    when it has no rows; the near-miss table and the two refill tables are
    always tables, and when they have no rows they have no columns. *)
Theorem empty_tables_columns {py : PyStr}
    (orders_raw : DataFrame OrderRow) (buffer_raw : DataFrame BufferRow)
    (allocated : DataFrame AllocatedLine) (near : DataFrame NearMissRecord)
    (allocated_df : DataFrame AllocatedLine) (buffer_snapshot : DataFrame BufferRow)
    (s_norm : list SaldoRow) (npu : list NpuRow) (hp asr : DataFrame RefillRow) :
  allocate orders_raw buffer_raw = Ok (allocated, near) ->
  calculate_refill allocated_df buffer_snapshot s_norm npu = Ok (hp, asr) ->
  df_columns allocated
  = df_columns orders_raw
    ++ filter (fun c => negb (str_in c (df_columns orders_raw))) ADDED_COLS
  /\ (df_rows near = [] -> df_columns near = [])
  /\ (df_rows hp = [] -> df_columns hp = [])
  /\ (df_rows asr = [] -> df_columns asr = []).
Proof.
  intros Ha Hr.
  apply allocate_Ok in Ha. destruct Ha as (qc & sc & bc & _ & -> & ->).
  apply calculate_refill_Ok in Hr. destruct Hr as (-> & ->).
  split; [reflexivity|]. split; [|split].
  - unfold near_miss_frame. destruct (near_miss_rows _); simpl; [auto | discriminate].
  - intros H. rewrite (proj1 (frame_of_rows _ _)) in H. now apply frame_of_rows.
  - intros H. rewrite (proj1 (frame_of_rows _ _)) in H. now apply frame_of_rows.
Qed.

Lemma empty_tables_columns_witness :
  let orders := Ex.orders [] in
  let buffer := Ex.buffer [("P1", 5, "B1")] in
  let columns := ["Artikel"; "Antal"; "Ordernr"; "Radnr";
                  "Zon (beräknad)"; "Källtyp"; "Källa"; "Källplats"] in
  let allocated := {| df_columns := columns; df_rows := [] |} in
  @allocate ascii_py orders buffer = Ok (allocated, mkDF [] [])
  /\ @calculate_refill ascii_py allocated buffer [] [] = Ok (mkDF [] [], mkDF [] [])
  /\ df_columns allocated
     = df_columns orders
       ++ filter (fun c => negb (str_in c (df_columns orders))) ADDED_COLS.
Proof.
  cbv zeta.
  split; [vm_compute; reflexivity|].
  split; [vm_compute; reflexivity|].
  eapply (@empty_tables_columns ascii_py (Ex.orders []) (Ex.buffer [("P1", 5, "B1")])
            _ {| df_columns := []; df_rows := [] |}
            {| df_columns := ["Artikel"; "Antal"; "Ordernr"; "Radnr";
                              "Zon (beräknad)"; "Källtyp"; "Källa"; "Källplats"];
               df_rows := [] |}
            (Ex.buffer [("P1", 5, "B1")]) [] []
            {| df_columns := []; df_rows := [] |} {| df_columns := []; df_rows := [] |}).
  - vm_compute. reflexivity.
  - vm_compute. reflexivity.
Defined.

(** C8 fails as stated: a run without near miss and without shortfall
    returns a near-miss table and two refill tables that have no rows and
    no columns, not their expected column sets. *)
Lemma empty_tables_without_columns :
  let orders := Ex.orders [("1", 10)] in
  let buffer := Ex.buffer [] in
  exists allocated near hp asr,
    @allocate ascii_py orders buffer = Ok (allocated, near)
    /\ @calculate_refill ascii_py allocated buffer
         [{| s_Artikel := "X"; s_Plocksaldo := 100; s_Plockplats := "A-01" |}] []
       = Ok (hp, asr)
    /\ df_rows near = [] /\ df_columns near = []
    /\ df_columns near <> NEAR_MISS_COLUMNS ++ [GALLER_COLUMN]
    /\ df_rows hp = [] /\ df_columns hp = [] /\ df_columns hp <> REFILL_HP_COLUMNS
    /\ df_rows asr = [] /\ df_columns asr = [] /\ df_columns asr <> REFILL_AS_COLUMNS.
Proof.
  cbv zeta. do 4 eexists.
  split; [vm_compute; reflexivity|].
  split; [vm_compute; reflexivity|].
  repeat split; try reflexivity; discriminate.
Qed.

(** ** The rows of the refill reports *)


Section RefillRows.
Context {py : PyStr}.




End RefillRows.




(** ** Rounding *)







(** ** The zone parts of an article *)







Section PartsFacts.
Context {py : PyStr}.








End PartsFacts.

(** ** Distribution of the shortfall over the zones *)




(* ================================================================== *)
(** * Further properties *)

(** ** A run of [allocate] *)

Section RunFacts.
Context {py : PyStr}.

Lemma optional_col_Ok columns candidates c :
  find_col columns candidates false None = Ok c ->
  optional_col columns candidates = c.
Proof. unfold optional_col. now intros ->. Qed.

(** The run behind a successful call of [allocate]. *)
Lemma allocate_run orders_raw buffer_raw allocated near :
  allocate orders_raw buffer_raw = Ok (allocated, near) ->
  exists order_qty_col,
    find_col (df_columns orders_raw) Schemas.ORDER_qty true None = Ok order_qty_col
    /\ let st :=
         allocation_loop
           (drop_status_35 (df_columns orders_raw)
              (optional_col (df_columns orders_raw) Schemas.ORDER_status)
              (df_rows orders_raw))
           (start_store buffer_raw) in
       allocated = {| df_columns := ordered_cols (df_columns orders_raw);
                      df_rows := promote (col_name order_qty_col) (allocated_rows st) |}
       /\ near = near_miss_frame (near_miss_rows st).
Proof.
  unfold allocate. intros H.
  repeat (apply bind_Ok in H; destruct H as (? & ? & H)).
  inversion H; subst. clear H.
  repeat match goal with
         | Hs : find_col _ _ false None = Ok _ |- _ =>
             apply optional_col_Ok in Hs
         end.
  unfold start_store, allocation_buffer.
  eexists. split; [eassumption|]. cbv zeta.
  repeat match goal with
         | Hs : optional_col _ _ = _ |- _ => rewrite Hs; clear Hs
         end.
  split; reflexivity.
Qed.

(** Lines with need <= 0 leave the store as it is. *)
Lemma process_line_skip st orow : o_qty orow <= 0 -> process_line st orow = st.
Proof.
  intros H. apply Qle_bool_iff in H. unfold process_line. now rewrite H.
Qed.

(** An invariant of the store is an invariant of the loop. *)
Lemma allocation_loop_invariant (I : Store -> Prop) (orders : list OrderRow) :
  (forall st orow, In orow orders -> 0 < o_qty orow -> I st -> I (process_line st orow)) ->
  forall st, I st -> I (allocation_loop orders st).
Proof.
  unfold allocation_loop.
  induction orders as [|o orders IH]; intros Hstep st Hst; simpl; auto.
  apply IH.
  - intros st' orow Hin. apply Hstep. simpl. auto.
  - destruct (Qlt_le_dec 0 (o_qty o)) as [Hneed|Hskip].
    + apply Hstep; simpl; auto.
    + rewrite process_line_skip; auto.
Qed.


Lemma promote_In order_qty_col rows r :
  In r (promote order_qty_col rows) ->
  exists r0, In r0 rows
             /\ sub_orow r = sub_orow r0 /\ sub_qty r = sub_qty r0
             /\ sub_kalla r = sub_kalla r0 /\ sub_kallplats r = sub_kallplats r0
             /\ (r = r0
                 \/ (sub_kalltyp r0 <> "HELPALL"
                     /\ sub_kalltyp r = "AUTOSTORE" /\ sub_zon r = "R")).
Proof.
  destruct (promote_is_map order_qty_col rows) as (art_of & autos & ->).
  intros Hin. apply in_map_iff in Hin. destruct Hin as (r0 & <- & Hr0).
  exists r0. split; auto.
  destruct (promote_row_fields art_of autos r0) as (H1 & H2 & H3 & H4).
  repeat (split; [assumption|]).
  unfold promote_row.
  destruct (str_in (art_of r0) autos); simpl; auto.
  destruct (String.eqb (sub_kalltyp r0) "HELPALL") eqn:E; simpl; auto.
  apply String.eqb_neq in E. right. auto.
Qed.

Lemma drop_status_35_In columns status_col orders o :
  In o (drop_status_35 columns status_col orders) ->
  In o orders
  /\ (truthy status_col && str_in (col_name status_col) columns = true ->
      o_status_num o <> Some 35%Z).
Proof.
  unfold drop_status_35.
  destruct (truthy status_col && str_in (col_name status_col) columns).
  - intros H. apply filter_In in H. destruct H as [Hin Hs]. split; auto.
    intros _ E. rewrite E in Hs. discriminate.
  - intros H. split; auto. discriminate.
Qed.

End RunFacts.



(** The lines of the table returned by [allocate]. *)
Lemma allocate_line_facts {py : PyStr}
    (orders_raw : DataFrame OrderRow) (buffer_raw : DataFrame BufferRow)
    (allocated : DataFrame AllocatedLine) (near : DataFrame NearMissRecord)
    (r : AllocatedLine) :
  allocate orders_raw buffer_raw = Ok (allocated, near) ->
  In r (df_rows allocated) ->
  In (sub_orow r) (df_rows orders_raw)
  /\ 0 < o_qty (sub_orow r)
  /\ (truthy (optional_col (df_columns orders_raw) Schemas.ORDER_status)
      && str_in (col_name (optional_col (df_columns orders_raw) Schemas.ORDER_status))
           (df_columns orders_raw) = true ->
      o_status_num (sub_orow r) <> Some 35%Z)
  /\ type_zone_ok r.
Proof.
  intros H Hin. apply allocate_run in H. destruct H as (qc & _ & -> & _).
  simpl in Hin. apply promote_In in Hin.
  destruct Hin as (r0 & Hr0 & Ho & _ & Hk & Hp & Hcase).
  set (orders := drop_status_35 (df_columns orders_raw)
                   (optional_col (df_columns orders_raw) Schemas.ORDER_status)
                   (df_rows orders_raw)) in *.
  assert (Hinv : Forall (fun r => In (sub_orow r) orders /\ 0 < o_qty (sub_orow r)
                                  /\ type_zone_ok r)
                   (allocated_rows (allocation_loop orders (start_store buffer_raw)))).
  { apply (allocation_loop_invariant
             (fun st => Forall (fun r => In (sub_orow r) orders /\ 0 < o_qty (sub_orow r)
                                         /\ type_zone_ok r) (allocated_rows st))).
    - intros st orow Hino Hneed Hst.
      destruct (process_line_split st orow Hneed)
        as (dh & da & dm & _ & Hrows & Hh & Ha & Hm & _).
      rewrite Hrows, !Forall_app. repeat split; auto.
      + eapply Forall_impl; [|exact Hh].
        intros x (-> & Hk' & Hz & _). repeat split; auto. left. auto.
      + eapply Forall_impl; [|exact Ha].
        intros x (-> & Hk' & Hz & _). repeat split; auto. right. left. auto.
      + eapply Forall_impl; [|exact Hm].
        intros x (-> & Hk' & Hz & Hs & Hl & _). repeat split; auto. right. right. auto.
    - constructor. }
  rewrite Forall_forall in Hinv. destruct (Hinv r0 Hr0) as (Hino & Hneed & Htz).
  rewrite Ho. apply drop_status_35_In in Hino. destruct Hino as [Hino Hstat].
  repeat split; auto.
  destruct Hcase as [->|(Hn & Hk' & Hz)]; auto.
  right. left. auto.
Qed.

(** X2.  Every line of the table returned by [allocate] belongs to an order
    line that is processed: a row of the order table with need > 0 and,
    when a status column is found, a status other than 35.  Its type and
    zone go together (HELPALL/H, AUTOSTORE/R, HUVUDPLOCK/A) and a HUVUDPLOCK
    line has no source. *)
Theorem allocated_lines_origin {py : PyStr}
    (orders_raw : DataFrame OrderRow) (buffer_raw : DataFrame BufferRow)
    (allocated : DataFrame AllocatedLine) (near : DataFrame NearMissRecord)
    (r : AllocatedLine) :
  allocate orders_raw buffer_raw = Ok (allocated, near) ->
  In r (df_rows allocated) ->
  In (sub_orow r) (df_rows orders_raw)
  /\ 0 < o_qty (sub_orow r)
  /\ (truthy (optional_col (df_columns orders_raw) Schemas.ORDER_status)
      && str_in (col_name (optional_col (df_columns orders_raw) Schemas.ORDER_status))
           (df_columns orders_raw) = true ->
      o_status_num (sub_orow r) <> Some 35%Z)
  /\ type_zone_ok r.
Proof. apply allocate_line_facts. Qed.

Lemma allocated_lines_origin_witness :
  let orders := Ex.orders [("1", 20); ("2", 3); ("3", 0)] in
  let buffer := Ex.buffer [("P1", 5, "B1"); ("P2", 17, "B2"); ("K1", 4, "AUTOSTORE-1")] in
  exists allocated near r,
    @allocate ascii_py orders buffer = Ok (allocated, near)
    /\ In r (df_rows allocated)
    /\ sub_kalla r = "K1"
    /\ type_zone_ok r.
Proof.
  cbv zeta. do 3 eexists. split; [vm_compute; reflexivity|].
  split; [right; left; reflexivity|]. split; [reflexivity|].
  eapply (fun H Hin => proj2 (proj2 (proj2
            (@allocated_lines_origin ascii_py
               (Ex.orders [("1", 20); ("2", 3); ("3", 0)])
               (Ex.buffer [("P1", 5, "B1"); ("P2", 17, "B2"); ("K1", 4, "AUTOSTORE-1")])
               _ _ _ H Hin)))).
  - vm_compute. reflexivity.
  - right; left; reflexivity.
Defined.

(** ** The lines of the order lines *)

Section GroupFacts.
Context {py : PyStr}.




End GroupFacts.



(** ** Pallets and bins along a run *)

Lemma subseq_trans {A} (l1 l2 l3 : list A) :
  subseq l1 l2 -> subseq l2 l3 -> subseq l1 l3.
Proof.
  intros H12 H23. revert l1 H12.
  induction H23 as [|x l2 l3 H IH|x l2 l3 H IH]; intros l1 H12.
  - exact H12.
  - apply subseq_skip. auto.
  - inversion H12; subst.
    + apply subseq_skip. auto.
    + apply subseq_keep. auto.
Qed.

Lemma filter_map_fix {A} (f : A -> bool) (g : A -> A) (l : list A) :
  (forall x, f x = true -> g x = x) ->
  (forall x, f x = false -> f (g x) = false) ->
  filter f (map g l) = filter f l.
Proof.
  intros Hfix Hno. induction l as [|x l IH]; simpl; auto.
  destruct (f x) eqn:E.
  - rewrite (Hfix x E), E, IH. reflexivity.
  - rewrite (Hno x E), IH. reflexivity.
Qed.

Section StageFacts.
Context {py : PyStr}.

(** The AUTOSTORE loop on positive bins: what is taken from the bins is
    what the lines carry, and when some need is left no bin is left. *)
Lemma autostore_loop_bins orow bq : forall s,
  Forall (fun u => 0 < u_qty u) bq ->
  exists d,
    a_allocated_rows (autostore_loop orow bq s) = a_allocated_rows s ++ d
    /\ Forall (autostore_line orow) d
    /\ Forall (fun r => exists binr, In binr bq /\ sub_kalla r = u_source_id binr
                                     /\ sub_kallplats r = u_loc binr
                                     /\ sub_qty r <= u_qty binr) d
    /\ Qsum (map u_qty bq) + Qsum (map u_qty (a_new_bq s))
       == Qsum (map sub_qty d) + Qsum (map u_qty (a_new_bq (autostore_loop orow bq s)))
    /\ (0 < a_need (autostore_loop orow bq s) ->
        a_new_bq (autostore_loop orow bq s) = a_new_bq s).
Proof.
  induction bq as [|binr bq IH]; intros s Hpos; simpl.
  - exists []. rewrite app_nil_r. simpl. repeat split; auto; try lra.
  - inversion Hpos as [|? ? Hb Hbq]; subst.
    destruct (Qltb 0 (a_need s)) eqn:Hneed.
    + apply Qltb_true in Hneed.
      destruct (IH (autostore_body orow binr s) Hbq) as (d & Hrows & Hall & Hsrc & Hsum & Hex).
      pose proof (autostore_loop_need orow bq (autostore_body orow binr s)) as Hle.
      assert (Hmore : forall r,
                (exists b, In b bq /\ sub_kalla r = u_source_id b
                           /\ sub_kallplats r = u_loc b /\ sub_qty r <= u_qty b) ->
                exists b, In b (binr :: bq) /\ sub_kalla r = u_source_id b
                          /\ sub_kallplats r = u_loc b /\ sub_qty r <= u_qty b).
      { intros r (b & Hin & Hrest). exists b. simpl. auto. }
      unfold autostore_body in *.
      destruct (py_min_cases (u_qty binr) (a_need s)) as [[Hlt Hmin]|[Hge Hmin]];
        rewrite Hmin in *.
      * (* the bin covers the need *)
        assert (Ht : Qltb 0 (a_need s) = true) by (apply Qltb_true; exact Hneed).
        rewrite Ht in *. simpl in *.
        assert (Hres : Qltb 0 (u_qty binr - a_need s) = true) by (apply Qltb_true; lra).
        rewrite Hres in *.
        match goal with
        | |- context [autostore_loop orow bq ?x] =>
            set (fin := autostore_loop orow bq x) in *
        end.
        eexists (_ :: d). rewrite Hrows, <- app_assoc. simpl.
        split; [reflexivity|]. split; [|split; [|split]].
        -- constructor; auto. repeat split; auto.
        -- constructor.
           ++ exists binr. simpl. repeat split; auto. lra.
           ++ eapply Forall_impl; [exact Hmore | exact Hsrc].
        -- rewrite map_app, Qsum_app in Hsum. simpl in Hsum. cbn [sub_qty]. lra.
        -- intros Hleft. exfalso.
           assert (H0 : 0 <= a_need s - a_need s) by lra.
           specialize (Hle H0). lra.
      * (* the bin is consumed whole *)
        assert (Ht : Qltb 0 (u_qty binr) = true) by (apply Qltb_true; exact Hb).
        rewrite Ht in *. simpl in *.
        assert (Hres : Qltb 0 (u_qty binr - u_qty binr) = false)
          by (apply Qltb_false; lra).
        rewrite Hres in *.
        match goal with
        | |- context [autostore_loop orow bq ?x] =>
            set (fin := autostore_loop orow bq x) in *
        end.
        eexists (_ :: d). rewrite Hrows, <- app_assoc. simpl.
        split; [reflexivity|]. split; [|split; [|split]].
        -- constructor; auto. repeat split; auto.
        -- constructor.
           ++ exists binr. simpl. repeat split; auto. lra.
           ++ eapply Forall_impl; [exact Hmore | exact Hsrc].
        -- cbn [sub_qty]. lra.
        -- exact Hex.
    + exists []. simpl. rewrite app_nil_r. apply Qltb_false in Hneed.
      repeat split; auto.
      * rewrite map_app, Qsum_app. simpl. lra.
      * intros Hleft. lra.
Qed.

(** The stages of one order line. *)
Lemma process_line_stages (st : Store) (orow : OrderRow) :
  0 < o_qty orow ->
  let art := strip (o_artikel orow) in
  let h := run_helpall st orow in
  let a := run_autostore st orow in
  exists dh da,
    emitted_for st orow
    = dh ++ da ++ (if Qltb 0 (a_need a) then [mainpick_row orow (a_need a)] else [])
    /\ Forall (helpall_line orow (pallet_queues st art)) dh
    /\ Forall (autostore_line orow) da
    /\ pallet_queues (process_line st orow) art = h_new_pq h
    /\ bin_queues (process_line st orow) art = a_new_bq a
    /\ (forall other, other <> art ->
          pallet_queues (process_line st orow) other = pallet_queues st other
          /\ bin_queues (process_line st orow) other = bin_queues st other)
    /\ near_miss_rows (process_line st orow)
       = mark_near_miss orow (galler_flag st orow)
           (near_miss_rows st ++ near_misses_for st orow)
    /\ 0 <= a_need a <= h_need h
    /\ (Forall (fun u => 0 < u_qty u) (bin_queues st art) ->
        Forall (fun r => exists binr, In binr (bin_queues st art)
                                      /\ sub_kalla r = u_source_id binr
                                      /\ sub_kallplats r = u_loc binr
                                      /\ sub_qty r <= u_qty binr) da
        /\ Qsum (map u_qty (bin_queues st art))
           == Qsum (map sub_qty da) + Qsum (map u_qty (a_new_bq a))
        /\ (0 < a_need a -> a_new_bq a = [])).
Proof.
  intros Hneed. cbv zeta.
  assert (Hgo : Qle_bool (o_qty orow) 0 = false) by (apply Qle_bool_false; exact Hneed).
  destruct (helpall_loop_spec orow (pallet_queues st (strip (o_artikel orow)))
              {| h_need := o_qty orow; h_any_helpall := false; h_new_pq := [];
                 h_allocated_rows := allocated_rows st;
                 h_near_miss_rows := near_miss_rows st |})
    as (dh & kept & Hh & _ & _ & Hhall & _).
  fold (run_helpall st orow) in Hh. simpl in Hh.
  destruct (autostore_loop_rows orow (bin_queues st (strip (o_artikel orow)))
              {| a_need := h_need (run_helpall st orow); a_any_autostore := false;
                 a_new_bq := []; a_allocated_rows := h_allocated_rows (run_helpall st orow) |})
    as (da & Ha & _ & Haall & _).
  fold (run_autostore st orow) in Ha. simpl in Ha.
  exists dh, da.
  assert (Hnn : 0 <= h_need (run_helpall st orow)).
  { apply helpall_loop_nonneg. simpl. lra. }
  split; [|split; [exact Hhall|split; [exact Haall|]]].
  - unfold emitted_for, process_line. rewrite Hgo. simpl.
    fold (run_autostore st orow). rewrite Ha, Hh.
    destruct (Qltb 0 (a_need (run_autostore st orow))).
    + rewrite <- !app_assoc, skipn_length_app. reflexivity.
    + rewrite <- !app_assoc, skipn_length_app, app_nil_r. reflexivity.
  - unfold process_line. rewrite Hgo. simpl.
    split; [apply set_queue_same|]. split; [apply set_queue_same|].
    split; [intros other Hother; split; apply set_queue_other; exact Hother|].
    split; [now rewrite (proj1 (run_helpall_near st orow))|].
    split.
    + apply (autostore_loop_need orow _
               {| a_need := h_need (run_helpall st orow); a_any_autostore := false;
                  a_new_bq := [];
                  a_allocated_rows := h_allocated_rows (run_helpall st orow) |}).
      exact Hnn.
    + intros Hpos.
      destruct (autostore_loop_bins orow (bin_queues st (strip (o_artikel orow)))
                  {| a_need := h_need (run_helpall st orow); a_any_autostore := false;
                     a_new_bq := [];
                     a_allocated_rows := h_allocated_rows (run_helpall st orow) |} Hpos)
        as (d & Hd & _ & Hsrc & Hsum & Hex).
      fold (run_autostore st orow) in Hd, Hsum, Hex. simpl in Hd, Hsum, Hex.
      rewrite Ha in Hd. apply app_inv_head in Hd. subst d.
      repeat split; auto. lra.
Qed.

End StageFacts.



(** X5.  The HUVUDPLOCK line is the last resort of an order line: when a
    line gets one, it is the last line emitted for it, no bin of the
    article is left, and every pallet left in the article's queue is larger
    than the quantity sent to main pick. *)
Theorem main_pick_is_last_resort {py : PyStr} (st : Store) (orow : OrderRow)
    (r : AllocatedLine) :
  0 < o_qty orow ->
  Forall (fun u => 0 < u_qty u) (pallet_queues st (strip (o_artikel orow))) ->
  Forall (fun u => 0 < u_qty u) (bin_queues st (strip (o_artikel orow))) ->
  In r (emitted_for st orow) ->
  sub_kalltyp r = "HUVUDPLOCK" ->
  let art := strip (o_artikel orow) in
  (exists before, emitted_for st orow = before ++ [r]
                  /\ Forall (fun x => sub_kalltyp x <> "HUVUDPLOCK") before)
  /\ bin_queues (process_line st orow) art = []
  /\ Forall (fun u => sub_qty r < u_qty u) (pallet_queues (process_line st orow) art).
Proof.
  intros Hneed Hpp Hpb Hin Hk. cbv zeta.
  destruct (process_line_stages st orow Hneed)
    as (dh & da & Hem & Hh & Ha & Hpq & Hbq & _ & _ & Hle & Hbins).
  destruct (process_line_split st orow Hneed)
    as (_ & _ & _ & _ & _ & _ & _ & _ & _ & _ & _ & _ & _ & _ & Hbig).
  cbv zeta in *.
  destruct (Hbins Hpb) as (_ & _ & Hex).
  assert (Hnh : forall x, In x dh -> sub_kalltyp x <> "HUVUDPLOCK").
  { intros x Hx. rewrite Forall_forall in Hh. destruct (Hh x Hx) as (_ & -> & _).
    discriminate. }
  assert (Hna : forall x, In x da -> sub_kalltyp x <> "HUVUDPLOCK").
  { intros x Hx. rewrite Forall_forall in Ha. destruct (Ha x Hx) as (_ & -> & _).
    discriminate. }
  rewrite Hem in Hin |- *.
  destruct (Qltb 0 (a_need (run_autostore st orow))) eqn:Hmain.
  - apply Qltb_true in Hmain.
    assert (Hr : r = mainpick_row orow (a_need (run_autostore st orow))).
    { apply in_app_or in Hin. destruct Hin as [Hin|Hin]; [exfalso; eapply Hnh; eauto|].
      apply in_app_or in Hin. destruct Hin as [Hin|Hin]; [exfalso; eapply Hna; eauto|].
      destruct Hin as [<-|[]]. reflexivity. }
    subst r. split; [|split].
    + exists (dh ++ da). rewrite <- app_assoc. split; [reflexivity|].
      apply Forall_forall. intros x Hx. apply in_app_or in Hx.
      destruct Hx; auto.
    + rewrite Hbq. apply Hex. exact Hmain.
    + rewrite Hpq. simpl.
      assert (Hh0 : 0 < h_need (run_helpall st orow)) by lra.
      eapply Forall_impl; [|exact (Hbig Hpp Hh0)].
      intros u Hu. simpl in Hu. lra.
  - exfalso. rewrite app_nil_r in Hin. apply in_app_or in Hin.
    destruct Hin as [Hin|Hin]; [eapply Hnh | eapply Hna]; eauto.
Qed.

Lemma main_pick_is_last_resort_witness :
  let st := Ex.store [Ex.unit "P1" 11 "B1"; Ex.unit "P2" 4 "B2"]
                     [Ex.unit "K1" 2 "AUTOSTORE-1"] in
  let orow := Ex.line "1" 10 in
  let r := mainpick_row orow (10 - 4 - 2) in
  0 < o_qty orow
  /\ In r (@emitted_for ascii_py st orow)
  /\ bin_queues (@process_line ascii_py st orow) "X" = []
  /\ Forall (fun u => sub_qty r < u_qty u)
            (pallet_queues (@process_line ascii_py st orow) "X").
Proof.
  cbv zeta. split; [reflexivity|].
  split; [right; right; left; reflexivity|].
  apply (@main_pick_is_last_resort ascii_py
           (Ex.store [Ex.unit "P1" 11 "B1"; Ex.unit "P2" 4 "B2"]
                     [Ex.unit "K1" 2 "AUTOSTORE-1"])
           (Ex.line "1" 10) (mainpick_row (Ex.line "1" 10) (10 - 4 - 2))).
  - reflexivity.
  - repeat constructor.
  - repeat constructor.
  - right; right; left; reflexivity.
  - reflexivity.
Defined.

(** ** The pallets of a run *)

Section PalletFacts.
Context {py : PyStr}.

Lemma helpall_sources_app art l1 l2 :
  helpall_sources art (l1 ++ l2) = helpall_sources art l1 ++ helpall_sources art l2.
Proof. unfold helpall_sources. now rewrite filter_app, map_app. Qed.

Lemma helpall_sources_of_type art t d :
  t <> "HELPALL" -> Forall (fun r => sub_kalltyp r = t) d -> helpall_sources art d = [].
Proof.
  intros Ht Hall. unfold helpall_sources.
  induction Hall as [|r d Hr _ IH]; simpl; auto.
  rewrite Hr. apply String.eqb_neq in Ht. rewrite Ht. simpl. exact IH.
Qed.

Lemma helpall_sources_of_line art orow q d :
  Forall (helpall_line orow q) d ->
  helpall_sources art d
  = if String.eqb (strip (o_artikel orow)) art then map line_key d else [].
Proof.
  intros Hall. unfold helpall_sources.
  destruct (String.eqb (strip (o_artikel orow)) art) eqn:E;
    induction Hall as [|r d (Ho & Hk & _) _ IH]; simpl; auto;
    rewrite Hk, Ho, E; simpl; rewrite IH; reflexivity.
Qed.

(** The HELPALL lines so far together with the queue of an article are the
    same pallets before and after a line. *)
Lemma process_line_sources st orow art :
  Permutation (helpall_sources art (allocated_rows st)
               ++ map unit_key (pallet_queues st art))
              (helpall_sources art (allocated_rows (process_line st orow))
               ++ map unit_key (pallet_queues (process_line st orow) art))
  /\ subseq (pallet_queues (process_line st orow) art) (pallet_queues st art).
Proof.
  destruct (Qlt_le_dec 0 (o_qty orow)) as [Hneed|Hskip].
  - destruct (process_line_split st orow Hneed)
      as (dh & da & dm & _ & Hrows & Hh & Ha & Hm & _ & _ & _ & _ & Hsub & Hperm & _).
    destruct (process_line_stages st orow Hneed)
      as (_ & _ & _ & _ & _ & Hpq & _ & Hother & _).
    cbv zeta in *.
    rewrite Hrows, !helpall_sources_app.
    rewrite (helpall_sources_of_line art orow _ dh Hh).
    rewrite (helpall_sources_of_type art "AUTOSTORE" da) by
      (try discriminate; eapply autostore_line_type; eauto).
    rewrite (helpall_sources_of_type art "HUVUDPLOCK" dm) by
      (try discriminate; eapply mainpick_line_type; eauto).
    simpl. rewrite app_nil_r.
    destruct (String.eqb (strip (o_artikel orow)) art) eqn:E.
    + apply String.eqb_eq in E. subst art. rewrite Hpq. split; [|exact Hsub].
      rewrite <- app_assoc. apply Permutation_app_head. exact Hperm.
    + apply String.eqb_neq in E.
      assert (Hq : pallet_queues (process_line st orow) art = pallet_queues st art).
      { apply Hother. congruence. }
      rewrite Hq, app_nil_r. split; [reflexivity | apply subseq_refl].
  - rewrite process_line_skip by assumption. split; [reflexivity | apply subseq_refl].
Qed.

Lemma allocation_loop_sources orders art : forall st,
  Permutation (helpall_sources art (allocated_rows st)
               ++ map unit_key (pallet_queues st art))
              (helpall_sources art (allocated_rows (allocation_loop orders st))
               ++ map unit_key (pallet_queues (allocation_loop orders st) art))
  /\ subseq (pallet_queues (allocation_loop orders st) art) (pallet_queues st art).
Proof.
  unfold allocation_loop.
  induction orders as [|o orders IH]; intros st; simpl.
  - split; [reflexivity | apply subseq_refl].
  - destruct (process_line_sources st o art) as [Hp Hs].
    destruct (IH (process_line st o)) as [Hp' Hs']. split.
    + etransitivity; eassumption.
    + eapply subseq_trans; eassumption.
Qed.

(** The promotion pass leaves the HELPALL lines as they are. *)
Lemma promote_helpall_sources order_qty_col art rows :
  helpall_sources art (promote order_qty_col rows) = helpall_sources art rows.
Proof.
  destruct (promote_is_map order_qty_col rows) as (art_of & autos & ->).
  unfold helpall_sources. f_equal. apply filter_map_fix.
  - intros r Hr. apply andb_true_iff in Hr. destruct Hr as [Hk _].
    unfold promote_row. rewrite Hk. now rewrite andb_false_r.
  - intros r Hr. unfold promote_row.
    destruct (str_in (art_of r) autos && negb (String.eqb (sub_kalltyp r) "HELPALL"));
      simpl; auto.
Qed.

(** A queue entry is a row of the table the queues are built from, of the
    article of the queue. *)
Lemma build_queues_In rows art u :
  In u (build_queues rows art) ->
  exists b, In b rows /\ u = unit_of_row b /\ strip (b_artikel b) = art.
Proof.
  unfold build_queues.
  assert (G : forall all q0,
            incl rows all ->
            (forall art u, In u (q0 art) ->
               exists b, In b all /\ u = unit_of_row b /\ strip (b_artikel b) = art) ->
            forall art u,
              In u (fold_left
                      (fun queues r =>
                         set_queue queues (strip (b_artikel r))
                           (queues (strip (b_artikel r)) ++ [unit_of_row r]))
                      rows q0 art) ->
              exists b, In b all /\ u = unit_of_row b /\ strip (b_artikel b) = art).
  { induction rows as [|r rows IH]; intros all q0 Hincl Hq0 art0 u0 Hin; simpl in Hin.
    - eauto.
    - eapply IH; [| |exact Hin].
      + intros x Hx. apply Hincl. simpl. auto.
      + intros art1 u1 H1. unfold set_queue in H1.
        destruct (String.eqb art1 (strip (b_artikel r))) eqn:E.
        * apply String.eqb_eq in E. subst art1.
          apply in_app_or in H1. destruct H1 as [H1|[<-|[]]]; auto.
          exists r. split; auto. apply Hincl. simpl. auto.
        * auto. }
  intros Hin. eapply (G rows (fun _ => [])); eauto.
  - apply incl_refl.
  - intros ? ? [].
Qed.

Lemma filtered_buffer_In buffer_raw b :
  In b (allocation_buffer buffer_raw) ->
  In b (df_rows buffer_raw) /\ 0 < b_qty b /\ mask_exclude b = false
  /\ (truthy (optional_col (df_columns buffer_raw) Schemas.BUFFER_status)
      && str_in (col_name (optional_col (df_columns buffer_raw) Schemas.BUFFER_status))
           (df_columns buffer_raw) = true ->
      status_allowed ALLOC_BUFFER_STATUSES b = true).
Proof.
  unfold allocation_buffer, filtered_buffer, filter_status. intros H.
  apply filter_In in H. destruct H as [H Hq]. apply Qltb_true in Hq.
  apply filter_In in H. destruct H as [H Hm]. apply negb_true_iff in Hm.
  destruct (truthy _ && str_in _ _).
  - apply filter_In in H. destruct H as [H Hs]. auto.
  - repeat split; auto. discriminate.
Qed.

End PalletFacts.

(** X6.  No pallet is allocated twice: for every article, the HELPALL
    lines of the table returned by [allocate] and the pallets still queued
    at the end of the run are, together, exactly the pallets queued for the
    article at the start; the pallets left keep their queue order. *)
Theorem pallets_allocated_at_most_once {py : PyStr}
    (orders_raw : DataFrame OrderRow) (buffer_raw : DataFrame BufferRow)
    (allocated : DataFrame AllocatedLine) (near : DataFrame NearMissRecord)
    (art : string) :
  allocate orders_raw buffer_raw = Ok (allocated, near) ->
  exists left,
    subseq left (pallet_queues (start_store buffer_raw) art)
    /\ Permutation (map unit_key (pallet_queues (start_store buffer_raw) art))
                   (helpall_sources art (df_rows allocated) ++ map unit_key left).
Proof.
  intros H. apply allocate_run in H. destruct H as (qc & _ & -> & _). simpl.
  rewrite promote_helpall_sources.
  match goal with
  | |- context [allocation_loop ?orders ?st] =>
      destruct (allocation_loop_sources orders art st) as [Hp Hs];
      exists (pallet_queues (allocation_loop orders st) art)
  end.
  split; [exact Hs|]. exact Hp.
Qed.

Lemma pallets_allocated_at_most_once_witness :
  let orders := Ex.orders [("1", 20); ("2", 3)] in
  let buffer := Ex.buffer [("P1", 5, "B1"); ("P2", 17, "B2"); ("K1", 4, "AUTOSTORE-1")] in
  exists allocated near left,
    @allocate ascii_py orders buffer = Ok (allocated, near)
    /\ subseq left (pallet_queues (@start_store ascii_py buffer) "X")
    /\ Permutation (map unit_key (pallet_queues (@start_store ascii_py buffer) "X"))
                   (@helpall_sources ascii_py "X" (df_rows allocated)
                    ++ map unit_key left).
Proof.
  cbv zeta. do 2 eexists.
  match goal with
  | |- exists left, ?A = ?B /\ _ =>
      assert (Hrun : A = B) by (vm_compute; reflexivity)
  end.
  destruct (@pallets_allocated_at_most_once ascii_py _ _ _ _ "X" Hrun) as (left & Hs & Hp).
  exists left. split; [exact Hrun|]. split; assumption.
Defined.

(** X7.  A HELPALL line is a whole pallet: its source, location and
    quantity are those of one row of the buffer table that has the line's
    article, a positive quantity, an allowed location outside the automated
    storage and, when a status column is found, an allowed status. *)
Theorem helpall_line_is_a_whole_pallet {py : PyStr}
    (orders_raw : DataFrame OrderRow) (buffer_raw : DataFrame BufferRow)
    (allocated : DataFrame AllocatedLine) (near : DataFrame NearMissRecord)
    (r : AllocatedLine) :
  allocate orders_raw buffer_raw = Ok (allocated, near) ->
  In r (df_rows allocated) ->
  sub_kalltyp r = "HELPALL" ->
  exists b,
    pallet_row buffer_raw b
    /\ strip (b_artikel b) = strip (o_artikel (sub_orow r))
    /\ sub_kalla r = b_source_id b
    /\ sub_qty r = b_qty b
    /\ sub_kallplats r = b_loc b.
Proof.
  intros H Hin Hk.
  pose proof H as Hrun. apply allocate_run in Hrun.
  destruct Hrun as (qc & _ & Ha & _).
  set (art := strip (o_artikel (sub_orow r))).
  assert (Hsrc : In (line_key r) (helpall_sources art (df_rows allocated))).
  { unfold helpall_sources. apply in_map, filter_In. split; auto.
    rewrite Hk. unfold art. simpl. apply String.eqb_refl. }
  subst allocated. simpl in Hsrc. rewrite promote_helpall_sources in Hsrc.
  match type of Hsrc with
  | context [allocation_loop ?orders ?st] =>
      destruct (allocation_loop_sources orders art st) as [Hp _]
  end.
  simpl in Hp.
  assert (Hq : In (line_key r)
                 (map unit_key (pallet_queues (start_store buffer_raw) art))).
  { eapply Permutation_in; [symmetry; exact Hp|]. apply in_or_app. auto. }
  apply in_map_iff in Hq. destruct Hq as (u & Hu & Hin_u).
  unfold start_store, initial_store in Hin_u. simpl in Hin_u.
  apply build_queues_In in Hin_u. destruct Hin_u as (b & Hb & -> & Hart).
  apply sort_values_in, filter_In in Hb. destruct Hb as [Hb Hnot].
  apply negb_true_iff in Hnot.
  apply filtered_buffer_In in Hb. destruct Hb as (Hb1 & Hb2 & Hb3 & Hb4).
  exists b. unfold line_key, unit_key in Hu. simpl in Hu. inversion Hu.
  repeat split; auto.
Qed.

Lemma helpall_line_is_a_whole_pallet_witness :
  let orders := Ex.orders [("1", 20); ("2", 3)] in
  let buffer := Ex.buffer [("P1", 5, "B1"); ("P2", 17, "B2"); ("K1", 4, "AUTOSTORE-1")] in
  exists allocated near r b,
    @allocate ascii_py orders buffer = Ok (allocated, near)
    /\ In r (df_rows allocated)
    /\ sub_kalltyp r = "HELPALL"
    /\ @pallet_row ascii_py buffer b
    /\ sub_kalla r = b_source_id b
    /\ sub_qty r = b_qty b.
Proof.
  cbv zeta. do 3 eexists.
  match goal with
  | |- exists b, ?A = ?B /\ _ =>
      assert (Hrun : A = B) by (vm_compute; reflexivity)
  end.
  match type of Hrun with
  | _ = Ok (?a, _) =>
      assert (Hin : In (hd (mainpick_row (Ex.line "1" 20) 0) (df_rows a)) (df_rows a))
        by (left; reflexivity)
  end.
  destruct (@helpall_line_is_a_whole_pallet ascii_py _ _ _ _ _ Hrun Hin eq_refl)
    as (b & Hb & _ & Hk & Hq & _).
  exists b.
  split; [exact Hrun|]. split; [exact Hin|]. split; [reflexivity|].
  split; [exact Hb|]. split; [exact Hk | exact Hq].
Defined.

(** ** A run without buffer *)

Section EmptyBufferFacts.
Context {py : PyStr}.

Lemma promote_without_autostore order_qty_col rows :
  Forall (fun r => sub_kalltyp r <> "AUTOSTORE") rows ->
  promote order_qty_col rows = rows.
Proof.
  intros Hall. unfold promote. destruct rows as [|r0 rows']; auto.
  assert (Hf : filter (fun r => String.eqb (sub_kalltyp r) "AUTOSTORE") (r0 :: rows') = []).
  { generalize dependent (r0 :: rows'). intros l Hl.
    induction Hl as [|r l Hr _ IH]; simpl; auto.
    apply String.eqb_neq in Hr. now rewrite Hr. }
  rewrite Hf. simpl. now destruct (truthy _).
Qed.

Lemma process_line_without_buffer st orow :
  0 < o_qty orow ->
  (forall art, pallet_queues st art = []) ->
  (forall art, bin_queues st art = []) ->
  near_miss_rows st = [] ->
  allocated_rows (process_line st orow)
  = allocated_rows st ++ [mainpick_row orow (o_qty orow)]
  /\ (forall art, pallet_queues (process_line st orow) art = [])
  /\ (forall art, bin_queues (process_line st orow) art = [])
  /\ near_miss_rows (process_line st orow) = [].
Proof.
  intros Hneed Hpq Hbq Hnm.
  assert (Hgo : Qle_bool (o_qty orow) 0 = false) by (apply Qle_bool_false; exact Hneed).
  assert (Hpos : Qltb 0 (o_qty orow) = true) by (apply Qltb_true; exact Hneed).
  unfold process_line, galler_flag, any_mainpick, run_autostore, run_helpall.
  rewrite Hgo, Hpq, Hbq, Hnm. simpl. rewrite Hpos. simpl.
  repeat split; auto; intros art; unfold set_queue;
    destruct (String.eqb art (strip (o_artikel orow))); auto.
Qed.

Lemma allocation_loop_without_buffer orders : forall st,
  (forall art, pallet_queues st art = []) ->
  (forall art, bin_queues st art = []) ->
  near_miss_rows st = [] ->
  allocated_rows (allocation_loop orders st)
  = allocated_rows st
    ++ map (fun o => mainpick_row o (o_qty o)) (filter (fun o => Qltb 0 (o_qty o)) orders)
  /\ near_miss_rows (allocation_loop orders st) = [].
Proof.
  unfold allocation_loop.
  induction orders as [|o orders IH]; intros st Hpq Hbq Hnm; simpl.
  - now rewrite app_nil_r.
  - destruct (Qltb 0 (o_qty o)) eqn:E.
    + apply Qltb_true in E.
      destruct (process_line_without_buffer st o E Hpq Hbq Hnm) as (Hr & Hp & Hb & Hn).
      destruct (IH _ Hp Hb Hn) as [IHr IHn]. rewrite IHr, Hr, <- app_assoc.
      split; [reflexivity | exact IHn].
    + apply Qltb_false in E. rewrite process_line_skip by assumption.
      apply IH; auto.
Qed.

End EmptyBufferFacts.

(** X8.  When no buffer row passes the filters of [allocate] (in
    particular with an empty buffer table), every processed order line gets
    exactly one line, of type HUVUDPLOCK in zone A, without source and for
    the whole need, in the order of the order table; the near-miss table is
    empty. *)
Theorem empty_buffer_goes_to_main_pick {py : PyStr}
    (orders_raw : DataFrame OrderRow) (buffer_raw : DataFrame BufferRow)
    (allocated : DataFrame AllocatedLine) (near : DataFrame NearMissRecord) :
  allocate orders_raw buffer_raw = Ok (allocated, near) ->
  allocation_buffer buffer_raw = [] ->
  df_rows allocated
  = map (fun o => mainpick_row o (o_qty o)) (processed_orders orders_raw)
  /\ df_rows near = [] /\ df_columns near = [].
Proof.
  intros H Hbuf. apply allocate_run in H. destruct H as (qc & _ & -> & ->).
  unfold start_store. rewrite Hbuf. simpl.
  match goal with
  | |- context [allocation_loop ?orders ?st] =>
      destruct (allocation_loop_without_buffer orders st) as [Hr Hn]; auto
  end.
  rewrite Hn, Hr. simpl. split; [|auto].
  apply promote_without_autostore.
  apply Forall_forall. intros r Hr'. apply in_map_iff in Hr'.
  destruct Hr' as (o & <- & _). simpl. discriminate.
Qed.

Lemma empty_buffer_goes_to_main_pick_witness :
  let orders := Ex.orders [("1", 20); ("2", 0); ("3", 3)] in
  let buffer := Ex.buffer [("P1", 0, "B1"); ("P2", 7, "AA-01")] in
  exists allocated near,
    @allocate ascii_py orders buffer = Ok (allocated, near)
    /\ @allocation_buffer ascii_py buffer = []
    /\ df_rows allocated
       = [mainpick_row (Ex.line "1" 20) 20; mainpick_row (Ex.line "3" 3) 3].
Proof.
  cbv zeta. do 2 eexists. split; [vm_compute; reflexivity|].
  split; [reflexivity|].
  eapply (@empty_buffer_goes_to_main_pick ascii_py
            (Ex.orders [("1", 20); ("2", 0); ("3", 3)])
            (Ex.buffer [("P1", 0, "B1"); ("P2", 7, "AA-01")])).
  - vm_compute. reflexivity.
  - reflexivity.
Defined.

(** ** The near-miss table of a run *)

Section NearMissFacts.
Context {py : PyStr}.








End NearMissFacts.



(** ** First in, first out *)

Section OrderFacts.

Lemma ascii_compare_lt_trans a b c :
  Ascii.compare a b = Lt -> Ascii.compare b c = Lt -> Ascii.compare a c = Lt.
Proof.
  unfold Ascii.compare. rewrite !N.compare_lt_iff. lia.
Qed.

Lemma string_compare_refl s : String.compare s s = Eq.
Proof.
  pose proof (String.compare_antisym s s) as H.
  destruct (String.compare s s); simpl in H; auto; discriminate.
Qed.

Lemma string_compare_lt_trans a : forall b c,
  String.compare a b = Lt -> String.compare b c = Lt -> String.compare a c = Lt.
Proof.
  induction a as [|x a IH]; intros [|y b] [|z c]; simpl; auto; try discriminate.
  destruct (Ascii.compare x y) eqn:Exy; try discriminate.
  - apply Ascii.compare_eq_iff in Exy. subst y.
    destruct (Ascii.compare x z) eqn:Exz; auto. apply IH.
  - intros _. destruct (Ascii.compare y z) eqn:Eyz; try discriminate.
    + apply Ascii.compare_eq_iff in Eyz. subst z. now rewrite Exy.
    + now rewrite (ascii_compare_lt_trans _ _ _ Exy Eyz).
Qed.

Lemma string_leb_trans a b c :
  String.leb a b = true -> String.leb b c = true -> String.leb a c = true.
Proof.
  unfold String.leb.
  destruct (String.compare a b) eqn:Eab; try discriminate;
    destruct (String.compare b c) eqn:Ebc; try discriminate; intros _ _.
  - apply String.compare_eq_iff in Eab, Ebc. subst. now rewrite string_compare_refl.
  - apply String.compare_eq_iff in Eab. subst. now rewrite Ebc.
  - apply String.compare_eq_iff in Ebc. subst. now rewrite Eab.
  - now rewrite (string_compare_lt_trans _ _ _ Eab Ebc).
Qed.

Lemma buffer_leb_total r1 r2 : buffer_leb r1 r2 = false -> buffer_leb r2 r1 = true.
Proof.
  unfold buffer_leb.
  rewrite (String.compare_antisym (b_artikel r2) (b_artikel r1)).
  destruct (String.compare (b_artikel r1) (b_artikel r2)); simpl; auto; try discriminate.
  rewrite (Z.compare_antisym (received_ord r1) (received_ord r2)).
  destruct (Z.compare (received_ord r1) (received_ord r2)); simpl; auto; try discriminate.
  intros H. destruct (String.leb_total (b_source_id r1) (b_source_id r2)); congruence.
Qed.

Lemma buffer_leb_trans r1 r2 r3 :
  buffer_leb r1 r2 = true -> buffer_leb r2 r3 = true -> buffer_leb r1 r3 = true.
Proof.
  unfold buffer_leb.
  destruct (String.compare (b_artikel r1) (b_artikel r2)) eqn:A12; try discriminate;
    destruct (String.compare (b_artikel r2) (b_artikel r3)) eqn:A23; try discriminate.
  - apply String.compare_eq_iff in A12, A23. rewrite A12, A23, string_compare_refl.
    destruct (Z.compare (received_ord r1) (received_ord r2)) eqn:Z12; try discriminate;
      destruct (Z.compare (received_ord r2) (received_ord r3)) eqn:Z23; try discriminate.
    + apply Z.compare_eq in Z12, Z23. rewrite Z12, Z23, Z.compare_refl.
      apply string_leb_trans.
    + apply Z.compare_eq in Z12. rewrite Z12, Z23. auto.
    + apply Z.compare_eq in Z23. rewrite <- Z23, Z12. auto.
    + intros _ _. rewrite Z.compare_lt_iff in *.
      assert (H : (received_ord r1 < received_ord r3)%Z) by lia.
      apply Z.compare_lt_iff in H. now rewrite H.
  - apply String.compare_eq_iff in A12. rewrite A12, A23. auto.
  - apply String.compare_eq_iff in A23. rewrite <- A23, A12. auto.
  - now rewrite (string_compare_lt_trans _ _ _ A12 A23).
Qed.

(** Insertion sort by a total and transitive order sorts. *)
Lemma insert_by_sorted {A} (leb : A -> A -> bool) x l :
  (forall a b, leb a b = false -> leb b a = true) ->
  (forall a b c, leb a b = true -> leb b c = true -> leb a c = true) ->
  StronglySorted (fun a b => leb a b = true) l ->
  StronglySorted (fun a b => leb a b = true) (insert_by leb x l).
Proof.
  intros Htot Htrans Hs. induction Hs as [|y l Hl IH Hy]; simpl.
  - constructor; constructor.
  - destruct (leb x y) eqn:E.
    + constructor; [constructor; assumption|].
      constructor; [exact E|].
      eapply Forall_impl; [|exact Hy]. intros z Hz. eapply Htrans; eassumption.
    + constructor; [exact IH|].
      assert (Hin : forall z, In z (insert_by leb x l) -> z = x \/ In z l).
      { clear. induction l as [|w l IHl]; simpl; intros z Hz.
        - destruct Hz as [->|[]]; auto.
        - destruct (leb x w); simpl in Hz.
          + destruct Hz as [->|[->|Hz]]; auto.
          + destruct Hz as [->|Hz]; auto. destruct (IHl z Hz); auto. }
      apply Forall_forall. intros z Hz. destruct (Hin z Hz) as [->|Hz'].
      * apply Htot. exact E.
      * rewrite Forall_forall in Hy. auto.
Qed.

Lemma sort_values_sorted {A} (leb : A -> A -> bool) l :
  (forall a b, leb a b = false -> leb b a = true) ->
  (forall a b c, leb a b = true -> leb b c = true -> leb a c = true) ->
  StronglySorted (fun a b => leb a b = true) (sort_values leb l).
Proof.
  intros Htot Htrans. induction l as [|x l IH]; simpl.
  - constructor.
  - apply insert_by_sorted; assumption.
Qed.

Lemma subseq_sorted {A} (R : A -> A -> Prop) (l1 l2 : list A) :
  subseq l1 l2 -> StronglySorted R l2 -> StronglySorted R l1.
Proof.
  intros Hsub. induction Hsub; intros Hs.
  - constructor.
  - inversion Hs; subst. auto.
  - inversion Hs; subst. constructor; auto.
    eapply subseq_Forall; eassumption.
Qed.

Lemma filter_sorted {A} (R : A -> A -> Prop) (p : A -> bool) l :
  StronglySorted R l -> StronglySorted R (filter p l).
Proof.
  intros Hs. induction Hs as [|x l Hl IH Hx]; simpl; [constructor|].
  destruct (p x); auto. constructor; auto.
  apply Forall_forall. intros y Hy. apply filter_In in Hy.
  rewrite Forall_forall in Hx. apply Hx. tauto.
Qed.

End OrderFacts.

Section FifoQueues.
Context {py : PyStr}.

(** A queue holds, in their order, the rows of its article. *)
Lemma build_queues_filter rows art :
  build_queues rows art
  = map unit_of_row (filter (fun r => String.eqb (strip (b_artikel r)) art) rows).
Proof.
  unfold build_queues.
  assert (G : forall q0,
            fold_left
              (fun queues r =>
                 set_queue queues (strip (b_artikel r))
                   (queues (strip (b_artikel r)) ++ [unit_of_row r]))
              rows q0 art
            = q0 art
              ++ map unit_of_row
                   (filter (fun r => String.eqb (strip (b_artikel r)) art) rows)).
  { induction rows as [|r rows IH]; intros q0; simpl.
    - now rewrite app_nil_r.
    - rewrite IH. unfold set_queue at 1.
      rewrite (String.eqb_sym art). 
      destruct (String.eqb (strip (b_artikel r)) art) eqn:E; simpl.
      + apply String.eqb_eq in E. rewrite E, <- app_assoc. reflexivity.
      + reflexivity. }
  rewrite G. reflexivity.
Qed.

Lemma start_queue_fifo buffer_raw art :
  (forall b, In b (df_rows buffer_raw) -> strip (b_artikel b) = b_artikel b) ->
  StronglySorted (fun u1 u2 => fifo_leb u1 u2 = true)
    (pallet_queues (start_store buffer_raw) art).
Proof.
  intros Hstrip. unfold start_store, initial_store. cbn [pallet_queues].
  rewrite build_queues_filter.
  set (pallets := filter (fun r => negb (is_autostore r)) (allocation_buffer buffer_raw)).
  assert (Hsorted : StronglySorted (fun a b => buffer_leb a b = true)
                      (filter (fun r => String.eqb (strip (b_artikel r)) art)
                         (sort_values buffer_leb pallets))).
  { apply filter_sorted, sort_values_sorted.
    - apply buffer_leb_total.
    - apply buffer_leb_trans. }
  assert (Hart : Forall (fun r => b_artikel r = art)
                   (filter (fun r => String.eqb (strip (b_artikel r)) art)
                      (sort_values buffer_leb pallets))).
  { apply Forall_forall. intros r Hr. apply filter_In in Hr. destruct Hr as [Hr E].
    apply String.eqb_eq in E. rewrite <- E. symmetry. apply Hstrip.
    apply sort_values_in in Hr. unfold pallets in Hr. apply filter_In in Hr.
    destruct Hr as [Hr _]. apply filtered_buffer_In in Hr. apply Hr. }
  induction Hsorted as [|r l Hl IH Hr]; simpl; [constructor|].
  inversion Hart as [|? ? Ha Hart']; subst.
  constructor; [apply IH; exact Hart'|].
  apply Forall_forall. intros u Hu. apply in_map_iff in Hu.
  destruct Hu as (r' & <- & Hr'). rewrite Forall_forall in Hr, Hart'.
  specialize (Hr r' Hr'). specialize (Hart' r' Hr').
  unfold buffer_leb in Hr. rewrite Hart', string_compare_refl in Hr.
  exact Hr.
Qed.

End FifoQueues.

(** X10.  The pallets of an article are queued first in, first out, and
    stay so: at the start of a run and after any number of order lines, the
    pallet queue of every article is ordered by reception time, pallets
    without time last, then by id (the articles of the buffer being
    stripped, as the normalisation leaves them). *)
Theorem pallet_queues_are_fifo {py : PyStr}
    (buffer_raw : DataFrame BufferRow) (orders : list OrderRow) (art : string) :
  (forall b, In b (df_rows buffer_raw) -> strip (b_artikel b) = b_artikel b) ->
  StronglySorted (fun u1 u2 => fifo_leb u1 u2 = true)
    (pallet_queues (allocation_loop orders (start_store buffer_raw)) art).
Proof.
  intros Hstrip.
  eapply subseq_sorted.
  - apply (proj2 (allocation_loop_sources orders art (start_store buffer_raw))).
  - apply start_queue_fifo. exact Hstrip.
Qed.

Lemma pallet_queues_are_fifo_witness :
  let buffer :=
    {| df_columns := Ex.BUFFER_COLUMNS ++ ["Mottagen"];
       df_rows :=
         [ {| b_artikel := "X"; b_qty := 5; b_loc := "B1"; b_received := None;
              b_source_id := "P1"; b_status := ""; b_status_num := None |};
           {| b_artikel := "X"; b_qty := 3; b_loc := "B2"; b_received := Some 200%Z;
              b_source_id := "P2"; b_status := ""; b_status_num := None |};
           {| b_artikel := "X"; b_qty := 9; b_loc := "B3"; b_received := Some 100%Z;
              b_source_id := "P3"; b_status := ""; b_status_num := None |} ] |} in
  (forall b, In b (df_rows buffer) -> @strip ascii_py (b_artikel b) = b_artikel b)
  /\ map u_source_id (pallet_queues (@start_store ascii_py buffer) "X") = ["P3"; "P2"; "P1"]
  /\ StronglySorted (fun u1 u2 => fifo_leb u1 u2 = true)
       (pallet_queues (@allocation_loop ascii_py [Ex.line "1" 4]
                         (@start_store ascii_py buffer)) "X").
Proof.
  cbv zeta.
  match goal with
  | |- ?H /\ _ => assert (Hstrip : H)
  end.
  { intros b [<-|[<-|[<-|[]]]]; reflexivity. }
  split; [exact Hstrip|]. split; [vm_compute; reflexivity|].
  exact (@pallet_queues_are_fifo ascii_py _ [Ex.line "1" 4] "X" Hstrip).
Defined.

(** ** The bins of a run *)

Section BinRun.
Context {py : PyStr}.










End BinRun.



(** ** Column discovery *)

Section FindColMore.
Context {py : PyStr}.

Lemma first_some_app {A B} (f : A -> option B) (l1 l2 : list A) :
  (forall x, In x l1 -> f x = None) ->
  first_some f (l1 ++ l2) = first_some f l2.
Proof.
  induction l1 as [|x l1 IH]; intros Hnone; simpl; auto.
  rewrite (Hnone x) by (simpl; auto). apply IH. intros y Hy. apply Hnone. simpl. auto.
Qed.

Lemma first_some_none {A B} (f : A -> option B) (l : list A) :
  (forall x, In x l -> f x = None) -> first_some f l = None.
Proof.
  intros H. rewrite <- (app_nil_r l). rewrite first_some_app by exact H. reflexivity.
Qed.

(** Without an exact match, [cols] has no entry for a candidate. *)
Lemma lower_index_miss columns k :
  (forall c, In c columns -> lower c <> k) ->
  dict_get k (lower_index columns) = None.
Proof.
  intros Hno. destruct (dict_get k (lower_index columns)) as [c|] eqn:E; auto.
  apply lower_index_get in E. destruct E as [Hl Hin]. exfalso. eapply Hno; eauto.
Qed.

Lemma dict_set_fresh {V} (k : string) (v : V) (d : dict V) :
  ~ In k (dict_keys d) -> dict_set k v d = d ++ [(k, v)].
Proof.
  induction d as [|[k' v'] d IH]; simpl; intros Hk; auto.
  destruct (String.eqb k' k) eqn:E.
  - apply String.eqb_eq in E. exfalso. apply Hk. auto.
  - rewrite IH; auto.
Qed.

(** With column names that differ up to case, [cols] lists the columns in
    the order of the table. *)
Lemma lower_index_NoDup columns :
  NoDup (map lower columns) ->
  lower_index columns = map (fun c => (lower c, c)) columns.
Proof.
  unfold lower_index.
  assert (G : forall d,
            NoDup (dict_keys d ++ map lower columns) ->
            fold_left (fun d c => dict_set (lower c) c d) columns d
            = d ++ map (fun c => (lower c, c)) columns).
  { induction columns as [|c columns IH]; intros d Hnd; simpl.
    - now rewrite app_nil_r.
    - simpl in Hnd.
      assert (Hfresh : ~ In (lower c) (dict_keys d)).
      { apply NoDup_remove_2 in Hnd. intros Hin. apply Hnd. apply in_or_app. auto. }
      rewrite dict_set_fresh by exact Hfresh.
      rewrite IH.
      + rewrite <- app_assoc. reflexivity.
      + unfold dict_keys. rewrite map_app. simpl. rewrite <- app_assoc. simpl.
        exact Hnd. }
  intros Hnd. apply (G []). exact Hnd.
Qed.

End FindColMore.

(** X12.  [find_col] prefers an exact match to a partial one, and an earlier
    candidate to a later one: when a candidate equals a column name up to
    case and no earlier candidate does, the result is a column that equals
    this candidate up to case, whatever the other columns contain and
    whatever [required] and [default] are. *)
Theorem find_col_prefers_exact_match {py : PyStr}
    (columns pre post : list string) (cand c : string)
    (required : bool) (default : option string) :
  In c columns ->
  lower c = lower cand ->
  (forall x col, In x pre -> In col columns -> lower col <> lower x) ->
  exists c', find_col columns (pre ++ cand :: post) required default = Ok (Some c')
             /\ In c' columns /\ lower c' = lower cand.
Proof.
  intros Hc Hlow Hpre. unfold find_col.
  rewrite first_some_app.
  2: { intros x Hx. apply lower_index_miss. intros col Hcol. apply Hpre; auto. }
  simpl.
  pose proof (lower_index_has columns c Hc) as Hhas. rewrite Hlow in Hhas.
  destruct (dict_get (lower cand) (lower_index columns)) as [c'|] eqn:E;
    [|contradiction].
  apply lower_index_get in E. destruct E as [Hl Hin]. eauto.
Qed.

Lemma find_col_prefers_exact_match_witness :
  exists c',
    @find_col ascii_py ["Artikelnamn"; "Lagerplats"; "ARTIKEL"]
      (["sku"] ++ "artikel" :: ["plats"]) true None = Ok (Some c')
    /\ In c' ["Artikelnamn"; "Lagerplats"; "ARTIKEL"]
    /\ @lower ascii_py c' = @lower ascii_py "artikel".
Proof.
  apply (@find_col_prefers_exact_match ascii_py
           ["Artikelnamn"; "Lagerplats"; "ARTIKEL"] ["sku"] ["plats"]
           "artikel" "ARTIKEL" true None).
  - simpl. auto.
  - reflexivity.
  - intros x col [<-|[]] [<-|[<-|[<-|[]]]]; vm_compute; discriminate.
Defined.

(** X13.  Without an exact match, [find_col] returns the first column, in
    the order of the table, whose lower-cased name contains a lower-cased
    candidate (the column names being different up to case). *)
Theorem find_col_falls_back_to_first_partial_match {py : PyStr}
    (before after candidates : list string) (c : string)
    (required : bool) (default : option string) :
  NoDup (map lower (before ++ c :: after)) ->
  (forall cand col, In cand candidates -> In col (before ++ c :: after) ->
                    lower col <> lower cand) ->
  (forall cand col, In cand candidates -> In col before ->
                    contains (lower cand) (lower col) = false) ->
  (exists cand, In cand candidates /\ contains (lower cand) (lower c) = true) ->
  find_col (before ++ c :: after) candidates required default = Ok (Some c).
Proof.
  intros Hnd Hexact Hbefore (cand & Hcand & Hcont). unfold find_col.
  rewrite first_some_none.
  2: { intros x Hx. apply lower_index_miss. intros col Hcol. apply Hexact; auto. }
  rewrite lower_index_NoDup by exact Hnd.
  rewrite map_app. rewrite first_some_app.
  - simpl.
    assert (Hex : existsb (fun cand => contains (lower cand) (lower c)) candidates = true).
    { apply existsb_exists. eauto. }
    rewrite Hex. reflexivity.
  - intros [k v] Hin. apply in_map_iff in Hin. destruct Hin as (col & E & Hcol).
    injection E as <- <-. simpl.
    destruct (existsb (fun cand => contains (lower cand) (lower col)) candidates) eqn:Hex;
      auto.
    apply existsb_exists in Hex. destruct Hex as (cand' & Hc' & Hcont').
    rewrite Hbefore in Hcont' by assumption. discriminate.
Qed.

Lemma find_col_falls_back_to_first_partial_match_witness :
  @find_col ascii_py (["Ordernr"] ++ "Artikelnummer" :: ["Artikelnamn"])
    ["artikel"; "sku"] true None = Ok (Some "Artikelnummer").
Proof.
  apply (@find_col_falls_back_to_first_partial_match ascii_py
           ["Ordernr"] ["Artikelnamn"] ["artikel"; "sku"] "Artikelnummer" true None).
  - vm_compute. repeat constructor; simpl; intuition discriminate.
  - intros cand col [<-|[<-|[]]] [<-|[<-|[<-|[]]]]; vm_compute; discriminate.
  - intros cand col [<-|[<-|[]]] [<-|[]]; reflexivity.
  - exists "artikel". split; [simpl; auto | reflexivity].
Defined.

(** The outcomes of [find_col]. *)
Lemma find_col_cases {py : PyStr} (columns candidates : list string)
    (required : bool) (default : option string) :
  (resolvable columns candidates
   /\ exists c cand,
        find_col columns candidates required default = Ok (Some c)
        /\ In c columns /\ In cand candidates
        /\ contains (lower cand) (lower c) = true)
  \/ (~ resolvable columns candidates
      /\ find_col columns candidates required default
         = if required && match default with None => true | Some _ => false end
           then Raise (KeyError (find_col_message columns candidates))
           else Ok default).
Proof.
  destruct (find_col_required columns candidates) as [[Hres (c & Hc & Hin)]|[Hres Hc]].
  - left. split; [exact Hres|].
    unfold find_col in *.
    destruct (first_some (fun cand => dict_get (lower cand) (lower_index columns))
                candidates) as [c1|] eqn:Hexact.
    + inversion Hc; subst c1.
      apply first_some_source in Hexact. destruct Hexact as (cand & Hcand & Hget).
      apply lower_index_get in Hget. destruct Hget as [Hlow _].
      exists c, cand. repeat split; auto. rewrite Hlow. apply contains_refl.
    + destruct (first_some _ (lower_index columns)) as [c1|] eqn:Hsub; [|discriminate].
      inversion Hc; subst c1.
      apply first_some_source in Hsub. destruct Hsub as ([k orig] & Hkin & Hf).
      simpl in Hf.
      destruct (existsb (fun cand => contains (lower cand) k) candidates) eqn:Hex;
        [|discriminate].
      inversion Hf; subst orig.
      apply lower_index_In in Hkin. destruct Hkin as [Hlow _].
      apply existsb_exists in Hex. destruct Hex as (cand & Hcand & Hcont).
      exists c, cand. repeat split; auto. now rewrite Hlow.
  - right. split; [exact Hres|].
    unfold find_col in *.
    destruct (first_some (fun cand => dict_get (lower cand) (lower_index columns))
                candidates); [discriminate|].
    destruct (first_some _ (lower_index columns)); [discriminate|].
    destruct required, default; reflexivity.
Qed.

(** X14.  The result of [find_col], for every [required] and [default]:
    when some column contains a candidate up to case, it is a column of the
    table that contains a candidate up to case, and [required] and
    [default] play no role; otherwise it is [default], except that a
    required column without default raises the [KeyError]. *)
Theorem find_col_result {py : PyStr} (columns candidates : list string)
    (required : bool) (default : option string) :
  (resolvable columns candidates
   /\ exists c cand,
        find_col columns candidates required default = Ok (Some c)
        /\ In c columns /\ In cand candidates
        /\ contains (lower cand) (lower c) = true)
  \/ (~ resolvable columns candidates
      /\ find_col columns candidates required default
         = if required && match default with None => true | Some _ => false end
           then Raise (KeyError (find_col_message columns candidates))
           else Ok default).
Proof. apply find_col_cases. Qed.

(** ** Reading numbers *)

Section ToNumFacts.





Lemma digit_not_minus c : is_digit c = true -> Ascii.eqb c "-" = false.
Proof.
  destruct c as [[] [] [] [] [] [] [] []]; try discriminate; reflexivity.
Qed.

Lemma digit_not_plus c : is_digit c = true -> Ascii.eqb c "+" = false.
Proof.
  destruct c as [[] [] [] [] [] [] [] []]; try discriminate; reflexivity.
Qed.

(** *** Strings without digit *)







(** *** Strings of digits *)


Lemma all_digits_app s t : all_digits (s ++ t) = all_digits s && all_digits t.
Proof.
  induction s as [|c s IH]; simpl; auto. rewrite IH. apply andb_assoc.
Qed.














Lemma digits_value_acc s : forall acc,
  digits_value acc s = (acc * 10 ^ Z.of_nat (String.length s) + digits_value 0 s)%Z.
Proof.
  induction s as [|c s IH]; intros acc.
  - simpl. lia.
  - cbn [digits_value String.length]. rewrite IH, (IH (10 * 0 + digit_value c)%Z).
    rewrite Nat2Z.inj_succ, Z.pow_succ_r by lia. lia.
Qed.










(** *** Decimal numerals *)




End ToNumFacts.







Section ToNumContext.









End ToNumContext.



(** ** The refill reports *)

Section FifoFacts.



End FifoFacts.


Section RefillFifo.
Context {py : PyStr}.





End RefillFifo.



Section RefillRowsMore.
Context {py : PyStr}.







End RefillRowsMore.



(** ** What the refill calculation counts as available *)

Section AvailableFacts.
Context {py : PyStr}.





End AvailableFacts.


(** ** Reclassification of bulky goods *)

Section ReclassifyFacts.
Context {py : PyStr}.

(** A lookup in [pp_map] is the pick-face location of the rule. *)
Lemma pp_map_of_get saldo_norm art :
  dict_get_default art "" (pp_map_of saldo_norm) = pick_location saldo_norm art.
Proof.
  unfold pp_map_of, pick_location, dict_get_default.
  assert (G : forall acc,
            dict_get "" acc = None ->
            dict_get art
              (fold_left
                 (fun pp_map r =>
                    if negb (String.eqb (strip (s_Artikel r)) "")
                       && negb (String.eqb (strip (s_Plockplats r)) "")
                       && match dict_get (strip (s_Artikel r)) pp_map with
                          | Some _ => false
                          | None => true
                          end
                    then dict_set (strip (s_Artikel r)) (strip (s_Plockplats r)) pp_map
                    else pp_map)
                 saldo_norm acc)
            = match dict_get art acc with
              | Some p => Some p
              | None =>
                  if String.eqb art "" then None
                  else option_map (fun s => strip (s_Plockplats s))
                         (find (fun s => String.eqb (strip (s_Artikel s)) art
                                         && negb (String.eqb (strip (s_Plockplats s)) ""))
                            saldo_norm)
              end).
  { induction saldo_norm as [|s saldo IH]; intros acc Hacc; simpl.
    - destruct (dict_get art acc); auto. destruct (String.eqb art ""); auto.
    - set (a := strip (s_Artikel s)). set (p := strip (s_Plockplats s)).
      destruct (String.eqb a "") eqn:Ea; simpl.
      + rewrite IH by exact Hacc.
        destruct (dict_get art acc) eqn:Eg; auto.
        destruct (String.eqb art "") eqn:Eart; auto.
        apply String.eqb_eq in Ea.
        destruct (String.eqb a art) eqn:Eaa; simpl; auto.
        apply String.eqb_eq in Eaa. apply String.eqb_neq in Eart. congruence.
      + destruct (String.eqb p "") eqn:Ep; simpl.
        * rewrite IH by exact Hacc. rewrite andb_false_r. reflexivity.
        * destruct (dict_get a acc) eqn:Ega; simpl.
          -- rewrite IH by exact Hacc.
             destruct (dict_get art acc) eqn:Eg; auto.
             destruct (String.eqb a art) eqn:Eaa; simpl; auto.
             apply String.eqb_eq in Eaa. congruence.
          -- rewrite IH.
             2: { rewrite dict_get_set. rewrite Ea. exact Hacc. }
             rewrite dict_get_set.
             destruct (String.eqb a art) eqn:Eaa; simpl.
             ++ apply String.eqb_eq in Eaa. subst art. rewrite Ega, Ea. reflexivity.
             ++ reflexivity. }
  rewrite (G []) by reflexivity. simpl.
  destruct (String.eqb art ""); auto.
  destruct (find _ saldo_norm); reflexivity.
Qed.

Lemma bulky_location_cond saldo_norm r :
  upper "" = "" ->
  reclassify_cond (pp_map_of saldo_norm) r
  = bulky_location (pick_location saldo_norm (res_art r)).
Proof.
  intros Hup. unfold reclassify_cond, bulky_location. rewrite pp_map_of_get.
  destruct (String.eqb (pick_location saldo_norm (res_art r)) "") eqn:E; auto.
  apply String.eqb_eq in E. rewrite E, Hup. reflexivity.
Qed.

Lemma pick_location_nil art : pick_location [] art = "".
Proof. unfold pick_location. simpl. destruct (String.eqb art ""); reflexivity. Qed.

Lemma reclassified_fix columns saldo_norm rows :
  (forall r, In r rows ->
     reclassify_mask columns r
     && bulky_location (pick_location saldo_norm (res_art r)) = false) ->
  map (reclassified columns saldo_norm) rows = rows.
Proof.
  intros H. rewrite <- (map_id rows) at 2. apply map_ext_in.
  intros r Hr. unfold reclassified. now rewrite H.
Qed.

(** The run of [_reclassify_skrymmande] on a table with a zone column. *)
Lemma reclassify_run result_df saldo_norm :
  upper "" = "" ->
  str_in "Zon (beräknad)" (df_columns result_df) = true ->
  _reclassify_skrymmande result_df saldo_norm
  = if df_empty result_df then Ok result_df
    else match saldo_norm with
         | [] => Ok result_df
         | _ =>
             _ <- find_col (df_columns result_df) Schemas.ORDER_artikel true None ;;
             Ok {| df_columns := df_columns result_df;
                   df_rows := map (reclassified (df_columns result_df) saldo_norm)
                                (df_rows result_df) |}
         end.
Proof.
  intros Hup Hzon. unfold _reclassify_skrymmande.
  assert (Hcols : match df_columns result_df with [] => true | _ => false end = false).
  { destruct (df_columns result_df); [discriminate Hzon | reflexivity]. }
  rewrite Hcols, orb_false_r.
  destruct (df_empty result_df); auto.
  destruct saldo_norm as [|s0 saldo']; auto.
  set (saldo := s0 :: saldo').
  destruct (find_col (df_columns result_df) Schemas.ORDER_artikel true None)
    as [c|e]; simpl; auto.
  destruct result_df as [columns rows]. simpl in *.
  assert (Hrule : forall r, reclassify_row columns (pp_map_of saldo) false r
                            = reclassified columns saldo r).
  { intros r. unfold reclassify_row, reclassified.
    rewrite bulky_location_cond by exact Hup. reflexivity. }
  destruct (pp_map_of saldo) as [|kv pp'] eqn:Epp.
  - f_equal. f_equal. symmetry. apply reclassified_fix. intros r _.
    rewrite <- pp_map_of_get, Epp. unfold dict_get_default. simpl.
    unfold bulky_location. simpl. apply andb_false_r.
  - destruct (existsb (reclassify_mask columns) rows) eqn:Emask; simpl.
    + rewrite Hzon. simpl. rewrite andb_false_r. f_equal. f_equal.
      apply map_ext. intros r. apply Hrule.
    + f_equal. f_equal. symmetry. apply reclassified_fix. intros r Hr.
      assert (Hm : reclassify_mask columns r = false).
      { destruct (reclassify_mask columns r) eqn:E; auto.
        assert (Hex : existsb (reclassify_mask columns) rows = true)
          by (apply existsb_exists; eauto).
        congruence. }
      now rewrite Hm.
Qed.


Lemma reclassified_idem columns saldo_norm r :
  reclassified columns saldo_norm (reclassified columns saldo_norm r)
  = reclassified columns saldo_norm r.
Proof.
  destruct (reclassify_mask columns r
            && bulky_location (pick_location saldo_norm (res_art r))) eqn:E.
  - assert (H1 : reclassified columns saldo_norm r = as_skrymmande r)
      by (unfold reclassified; now rewrite E).
    rewrite H1. unfold reclassified, reclassify_mask. simpl.
    destruct (str_in "Källtyp" columns); simpl; rewrite andb_false_r; reflexivity.
  - assert (H1 : reclassified columns saldo_norm r = r)
      by (unfold reclassified; now rewrite E).
    rewrite H1. exact H1.
Qed.




End ReclassifyFacts.

(** X23.  On a table with a zone column, [_reclassify_skrymmande] applies
    one rule to every line: a line without source of type HUVUDPLOCK or
    AUTOSTORE whose article has a pick-face location (the first non-blank
    one of the stock table) that starts with SK or contains BRAND, whatever
    the case, becomes SKRYMMANDE in zone S; every other line, the columns,
    the number and the order of the lines stay as they are.  The early
    returns of the function agree with the rule. *)
Theorem reclassification_follows_one_rule {py : PyStr}
    (result_df res : DataFrame AllocatedLine) (saldo_norm : list SaldoRow) :
  upper "" = "" ->
  str_in "Zon (beräknad)" (df_columns result_df) = true ->
  _reclassify_skrymmande result_df saldo_norm = Ok res ->
  df_columns res = df_columns result_df
  /\ df_rows res
     = map (reclassified (df_columns result_df) saldo_norm) (df_rows result_df).
Proof.
  intros Hup Hzon H. rewrite reclassify_run in H by assumption.
  destruct result_df as [columns rows]. unfold df_empty in H. simpl in *.
  destruct rows as [|r0 rows'].
  - inversion H; subst. auto.
  - destruct saldo_norm as [|s0 saldo'].
    + inversion H; subst. simpl. split; auto.
      symmetry. apply (reclassified_fix columns [] (r0 :: rows')). intros r _.
      rewrite pick_location_nil. unfold bulky_location. simpl. apply andb_false_r.
    + apply bind_Ok in H. destruct H as (c & _ & H). inversion H; subst. auto.
Qed.

Lemma reclassification_follows_one_rule_witness :
  let table :=
    {| df_columns := ["Artikel"; "Antal"; "Ordernr"; "Radnr";
                      "Zon (beräknad)"; "Källtyp"; "Källa"; "Källplats"];
       df_rows := [Ex.refill_line "HUVUDPLOCK" 7; Ex.refill_line "HELPALL" 3] |} in
  let saldo := [{| s_Artikel := "X"; s_Plocksaldo := 2; s_Plockplats := "sk-01" |}] in
  exists res,
    @_reclassify_skrymmande ascii_py table saldo = Ok res
    /\ df_rows res
       = [as_skrymmande (Ex.refill_line "HUVUDPLOCK" 7); Ex.refill_line "HELPALL" 3]
    /\ df_rows res = map (@reclassified ascii_py (df_columns table) saldo) (df_rows table).
Proof.
  cbv zeta. eexists. split; [vm_compute; reflexivity|]. split; [vm_compute; reflexivity|].
  apply (@reclassification_follows_one_rule ascii_py
           {| df_columns := ["Artikel"; "Antal"; "Ordernr"; "Radnr";
                             "Zon (beräknad)"; "Källtyp"; "Källa"; "Källplats"];
              df_rows := [Ex.refill_line "HUVUDPLOCK" 7; Ex.refill_line "HELPALL" 3] |}
           _ [{| s_Artikel := "X"; s_Plocksaldo := 2; s_Plockplats := "sk-01" |}]).
  - reflexivity.
  - reflexivity.
  - vm_compute. reflexivity.
Defined.

(** X24.  A second pass of [_reclassify_skrymmande] over its own result
    changes nothing. *)
Theorem reclassification_is_idempotent {py : PyStr}
    (result_df res : DataFrame AllocatedLine) (saldo_norm : list SaldoRow) :
  upper "" = "" ->
  str_in "Zon (beräknad)" (df_columns result_df) = true ->
  _reclassify_skrymmande result_df saldo_norm = Ok res ->
  _reclassify_skrymmande res saldo_norm = Ok res.
Proof.
  intros Hup Hzon H. rewrite reclassify_run in H by assumption.
  destruct result_df as [columns rows]. unfold df_empty in H. simpl in *.
  destruct rows as [|r0 rows'].
  { inversion H; subst. rewrite reclassify_run by assumption. reflexivity. }
  destruct saldo_norm as [|s0 saldo'].
  { inversion H; subst. rewrite reclassify_run by assumption. reflexivity. }
  destruct (find_col columns Schemas.ORDER_artikel true None) as [c|e] eqn:Hc;
    simpl in H; [|discriminate].
  inversion H; subst res. clear H.
  rewrite reclassify_run by assumption.
  unfold df_empty. cbn [df_rows df_columns map].
  rewrite Hc. simpl. f_equal. f_equal. f_equal.
  - apply reclassified_idem.
  - rewrite map_map. apply map_ext. intros r. apply reclassified_idem.
Qed.

Lemma reclassification_is_idempotent_witness :
  let table :=
    {| df_columns := ["Artikel"; "Antal"; "Ordernr"; "Radnr";
                      "Zon (beräknad)"; "Källtyp"; "Källa"; "Källplats"];
       df_rows := [Ex.refill_line "HUVUDPLOCK" 7; Ex.refill_line "HELPALL" 3] |} in
  let saldo := [{| s_Artikel := "X"; s_Plocksaldo := 2; s_Plockplats := "sk-01" |}] in
  exists res,
    @_reclassify_skrymmande ascii_py table saldo = Ok res
    /\ @_reclassify_skrymmande ascii_py res saldo = Ok res.
Proof.
  cbv zeta. eexists. split; [vm_compute; reflexivity|].
  apply (@reclassification_is_idempotent ascii_py
           {| df_columns := ["Artikel"; "Antal"; "Ordernr"; "Radnr";
                             "Zon (beräknad)"; "Källtyp"; "Källa"; "Källplats"];
              df_rows := [Ex.refill_line "HUVUDPLOCK" 7; Ex.refill_line "HELPALL" 3] |}
           _ [{| s_Artikel := "X"; s_Plocksaldo := 2; s_Plockplats := "sk-01" |}]).
  - reflexivity.
  - reflexivity.
  - vm_compute. reflexivity.
Defined.

(** ** Allocation followed by reclassification, and the summary *)

Section PipelineFacts.
Context {py : PyStr}.






End PipelineFacts.





Section RefillRun.
Context {py : PyStr}.



End RefillRun.


